(** * Solar Energy Calculator (cal.py): season table, energy formula,
      data generator and the display guard.

    The script is embedded shallowly.  Python dicts with string keys are
    stdpp [gmap]s, exceptions are a [result] type, and the global state the
    script touches (numpy's generator, the mutable [SEASONS_CONFIG], the
    session state and the rendered page) is threaded through a small
    state-and-exception monad.

    Python floats are kept abstract behind the class [Number], which has two
    instances: exact rationals ([Q]) and IEEE binary64 ([float], Rocq's
    primitive floats).  Facts about the shape of the generated data are
    proved for every instance; order facts are proved over [Q]; closed runs
    are evaluated in both. *)

From Stdlib Require Import ZArith QArith Qabs Qround Lqa Floats.
From stdpp Require Import gmap strings list pretty.

Local Open Scope Z_scope.

(** ** Numbers *)

(** The arithmetic the script performs on floats: conversion from [int],
    decimal literals ([literal m k] is the literal [m / 10^k]), [+], [-],
    [*], [abs], the builtin [round(x, 2)] and the comparison [<=] (which
    plotly applies to marker sizes). *)
Class Number (A : Type) := {
  of_int : Z → A;
  literal : Z → nat → A;
  nadd : A → A → A;
  nsub : A → A → A;
  nmul : A → A → A;
  nabs : A → A;
  round2 : A → A;
  nleb : A → A → bool;
}.

Declare Scope num_scope.
Delimit Scope num_scope with num.
Infix "+" := nadd : num_scope.
Infix "-" := nsub : num_scope.
Infix "*" := nmul : num_scope.

(** [a / b] rounded to the nearest integer, ties to even ([b] positive). *)
Definition div_half_even (a b : Z) : Z :=
  let q := a / b in
  match 2 * (a mod b) ?= b with
  | Lt => q
  | Gt => q + 1
  | Eq => if Z.even q then q else q + 1
  end.

(** *** Exact rationals *)

Definition Qround_half_even (x : Q) : Z :=
  div_half_even (Qnum x) (Zpos (Qden x)).

(** [round(x, 2)]: the nearest multiple of 1/100, ties to even. *)
Definition Qround2 (x : Q) : Q :=
  (inject_Z (Qround_half_even (x * 100)) / 100)%Q.

#[export] Instance Q_Number : Number Q := {
  of_int := inject_Z;
  literal m k := (inject_Z m / inject_Z (10 ^ Z.of_nat k))%Q;
  nadd := Qplus;
  nsub := Qminus;
  nmul := Qmult;
  nabs := Qabs;
  round2 := Qround2;
  nleb := Qle_bool;
}.

(** *** binary64 *)

(** The double nearest to the rational [p / q] ([q] positive), ties to even:
    what Python's parser does to a decimal literal and what [int -> float]
    conversion does to an integer. *)
Definition nearest_float (p q : Z) : float :=
  if p =? 0 then 0%float else
  let a := Z.abs p in
  let l := Z.log2 a - Z.log2 q in
  let fl := if (if 0 <=? l then q * 2 ^ l <=? a else q <=? a * 2 ^ (- l))
            then l else l - 1 in
  let e := Z.max (fl - 52) (-1074) in
  let m := if 0 <=? e then div_half_even a (q * 2 ^ e)
           else div_half_even (a * 2 ^ (- e)) q in
  SF2Prim (binary_normalize 53 1024 (if p <? 0 then - m else m) e false).

(** [round(x, 2)] on a double (CPython's [float.__round__]): the exact
    binary value is rounded to two decimals, ties to even, and the decimal
    result is converted back to the nearest double.  Infinities and NaN are
    returned unchanged; a result of zero keeps the sign of [x]. *)
Definition float_round2 (x : float) : float :=
  match Prim2SF x with
  | S754_finite s m e =>
      let n := if 0 <=? e then 100 * Zpos m * 2 ^ e
               else div_half_even (100 * Zpos m) (2 ^ (- e)) in
      if n =? 0 then (x * 0)%float
      else nearest_float (if s then - n else n) 100
  | _ => x
  end.

#[export] Instance float_Number : Number float := {
  of_int z := nearest_float z 1;
  literal m k := nearest_float m (10 ^ Z.of_nat k);
  nadd := PrimFloat.add;
  nsub := PrimFloat.sub;
  nmul := PrimFloat.mul;
  nabs := PrimFloat.abs;
  round2 := float_round2;
  nleb := PrimFloat.leb;
}.

(** ** Exceptions and the calendar *)

Inductive exn :=
  | KeyError (key : string)
  | IllegalMonthError (month : Z)
  | TypeError
  | ValueError.

Inductive result (X : Type) :=
  | Ok (x : X)
  | Raise (e : exn).
Arguments Ok {X} x.
Arguments Raise {X} e.

(** [MONTH_NAME_TO_NUM] *)
Definition MONTH_NAME_TO_NUM : gmap string Z :=
  list_to_map
    [("January", 1); ("February", 2); ("March", 3); ("April", 4);
     ("May", 5); ("June", 6); ("July", 7); ("August", 8);
     ("September", 9); ("October", 10); ("November", 11); ("December", 12)].

(** [calendar.isleap] *)
Definition isleap (year : Z) : bool :=
  (year mod 4 =? 0) && (negb (year mod 100 =? 0) || (year mod 400 =? 0)).

(** [calendar.mdays] *)
Definition mdays : list Z := [0; 31; 28; 31; 30; 31; 30; 31; 31; 30; 31; 30; 31].

(** Second component of [calendar.monthrange(year, month)]: the number of
    days of the month.  (The first component, a weekday, is never used.) *)
Definition monthrange_ndays (year month : Z) : result Z :=
  if (1 <=? month) && (month <=? 12) then
    Ok (nth (Z.to_nat month) mdays 0
        + (if (month =? 2) && isleap year then 1 else 0))
  else Raise (IllegalMonthError month).

(** The f-string fields [{n}] and [{n:02d}] for an [int]. *)
Definition str (n : Z) : string := pretty n.

Definition format_02d (n : Z) : string :=
  let s := str n in
  if (String.length s <? 2)%nat then "0" +:+ s else s.

(** [range(lo, hi)] *)
Definition range (lo hi : Z) : list Z := seqZ lo (hi - lo).

(** ** Data model *)

(** The five [(min, max)] pairs of a ['ranges'] dict.  The table and the
    sliders (declared with integer bounds and steps) only ever hold ints. *)
Record Ranges := {
  irradiance_range : Z * Z;
  humidity_range : Z * Z;
  wind_speed_range : Z * Z;
  ambient_temperature_range : Z * Z;
  tilt_angle_range : Z * Z;
}.

(** An entry of [SEASONS_CONFIG]. *)
Record SeasonConfig := {
  months : list string;
  ranges : Ranges;
  color : string;
  icon : string;
}.

(** [SEASONS_CONFIG] as the module defines it.  Keys in insertion order:
    winter, spring, summer, autumn. *)
Definition SEASONS_CONFIG_items : list (string * SeasonConfig) :=
  [("winter",
    {| months := ["November"; "December"; "January"; "February"];
       ranges := {| irradiance_range := (300, 700);
                    humidity_range := (30, 70);
                    wind_speed_range := (1, 6);
                    ambient_temperature_range := (5, 20);
                    tilt_angle_range := (10, 40) |};
       color := "#3498db"; icon := "❄️" |});
   ("spring",
    {| months := ["March"; "April"; "May"];
       ranges := {| irradiance_range := (400, 800);
                    humidity_range := (40, 80);
                    wind_speed_range := (2, 8);
                    ambient_temperature_range := (15, 25);
                    tilt_angle_range := (15, 35) |};
       color := "#2ecc71"; icon := "🌸" |});
   ("summer",
    {| months := ["June"; "July"; "August"];
       ranges := {| irradiance_range := (600, 1000);
                    humidity_range := (50, 90);
                    wind_speed_range := (3, 10);
                    ambient_temperature_range := (25, 40);
                    tilt_angle_range := (0, 30) |};
       color := "#f39c12"; icon := "☀️" |});
   ("autumn",
    {| months := ["September"; "October"];
       ranges := {| irradiance_range := (350, 750);
                    humidity_range := (35, 75);
                    wind_speed_range := (2, 7);
                    ambient_temperature_range := (10, 25);
                    tilt_angle_range := (20, 45) |};
       color := "#e67e22"; icon := "🍂" |})].

Definition SEASONS_CONFIG : gmap string SeasonConfig :=
  list_to_map SEASONS_CONFIG_items.

(** ** Specification-side definitions *)

(** The Gregorian calendar, in words: thirty days have September, April,
    June and November; February has twenty-eight, twenty-nine in a leap
    year; the rest have thirty-one.  A year is a leap year when it is
    divisible by 4, except centuries not divisible by 400. *)
Definition leap_year (year : Z) : Prop :=
  (4 | year) ∧ (¬ (100 | year) ∨ (400 | year)).

#[export] Instance Z_divide_dec (a b : Z) : Decision ((a | b)).
Proof.
  destruct (decide (a = 0)) as [->|Ha].
  - destruct (decide (b = 0)) as [->|Hb].
    + left. apply Z.divide_0_r.
    + right. by intros ?%Z.divide_0_l.
  - destruct (decide (b mod a = 0)) as [Hm|Hm].
    + left. by apply Z.mod_divide.
    + right. intros Hd. by apply Z.mod_divide in Hd.
Defined.

#[export] Instance leap_year_dec year : Decision (leap_year year).
Proof. unfold leap_year. apply _. Defined.

Definition days_in_month (month : string) (year : Z) : Z :=
  if bool_decide (month ∈ ["September"; "April"; "June"; "November"]) then 30
  else if bool_decide (month = "February") then
    (if bool_decide (leap_year year) then 29 else 28)
  else 31.

Definition Zsum (l : list Z) : Z := foldr Z.add 0 l.

Section Program.
Context {A : Type} `{Number A}.

(** The numbers numpy's global generator hands out in this process:
    [random_sample k] is the result of the [k]-th call of
    [random_sample()].  The generator is never seeded, so the sequence is
    arbitrary. *)
Variable random_sample : nat → A.

(** One row of the generated table: the dict appended to [data], with its
    keys in insertion order. *)
Record DailyRecord := {
  date : string;
  irradiance : A;
  humidity : A;
  wind_speed : A;
  ambient_temperature : A;
  tilt_angle : A;
  kwh : A;
  season : string;
  month : string;
  day : Z;
}.

(** [pd.DataFrame(data)]: the rows in order. *)
Abbreviation DataFrame := (list DailyRecord).

Inductive SessionValue :=
  | VDataFrame (df : DataFrame)
  | VStr (s : string).

(** A plotly figure, by the columns it plots. *)
Inductive Figure :=
  | Line (x y : string)
  | Heatmap (columns : list string)
  | Histogram (x : string)
  | Box (x y : string)
  | Scatter (x y : string).

(** What a run of the script puts on the page. *)
Inductive Element :=
  | Title
  | SeasonCard (icon : string) (season : string) (months : list string) (year : Z)
  | Subheader (text : string)
  | MetricCards (df : DataFrame)
  | MonthlyStats (df : DataFrame)
  | PlotlyChart (fig : Figure) (df : DataFrame)
  | FormulaCard (season : string)
  | DownloadButton (df : DataFrame) (file_name : string)
  | Info (text : string).

(** The state a run reads and writes. *)
Record World := {
  rng_pos : nat;
  seasons_config : gmap string SeasonConfig;
  session_state : gmap string SessionValue;
  page : list Element;
}.

(** *** The monad *)

Definition M (X : Type) : Type := World → result X * World.

Definition ret {X} (x : X) : M X := λ w, (Ok x, w).

Definition raise {X} (e : exn) : M X := λ w, (Raise e, w).

Definition bind {X Y} (m : M X) (k : X → M Y) : M Y :=
  λ w, match m w with
       | (Ok x, w') => k x w'
       | (Raise e, w') => (Raise e, w')
       end.

Notation "'let*' x := m 'in' k" := (bind m (λ x, k))
  (at level 10, x name, m at level 100, k at level 200).

(** [d[k]] *)
Definition getitem {V} (d : gmap string V) (k : string) : M V :=
  match d !! k with
  | Some v => ret v
  | None => raise (KeyError k)
  end.

(** [for x in xs: body], with the variables the body assigns as [s]. *)
Fixpoint for_ {X S} (xs : list X) (body : S → X → M S) (s : S) : M S :=
  match xs with
  | [] => ret s
  | x :: xs' => let* s' := body s x in for_ xs' body s'
  end.

(** [np.random.uniform(low, high)]: numpy computes
    [low + (high - low) * random_sample()]. *)
Definition np_random_uniform (bounds : Z * Z) : M A :=
  λ w, (Ok (of_int bounds.1
            + (of_int bounds.2 - of_int bounds.1) * random_sample (rng_pos w))%num,
        {| rng_pos := S (rng_pos w);
           seasons_config := seasons_config w;
           session_state := session_state w;
           page := page w |}).

(** *** The functions of cal.py *)

Definition get_days_in_month (month : string) (year : Z) : M Z :=
  let* num := getitem MONTH_NAME_TO_NUM month in
  match monthrange_ndays year num with
  | Ok days => ret days
  | Raise e => raise e
  end.

Record Coefficients := {
  c_irr : A;
  c_hum : A;
  c_wind : A;
  c_temp : A;
  c_tilt : A;
}.

Definition coefficients : gmap string Coefficients :=
  list_to_map
    [("winter", {| c_irr := literal 18 2; c_hum := literal (-3) 2;
                   c_wind := literal 15 3; c_temp := literal 8 2;
                   c_tilt := literal (-2) 2 |});
     ("spring", {| c_irr := literal 20 2; c_hum := literal (-25) 3;
                   c_wind := literal 2 2; c_temp := literal 6 2;
                   c_tilt := literal (-15) 3 |});
     ("summer", {| c_irr := literal 22 2; c_hum := literal (-35) 3;
                   c_wind := literal 25 3; c_temp := literal 4 2;
                   c_tilt := literal (-1) 2 |});
     ("autumn", {| c_irr := literal 19 2; c_hum := literal (-28) 3;
                   c_wind := literal 18 3; c_temp := literal 7 2;
                   c_tilt := literal (-18) 3 |})].

Definition calc_kwh_generalized
    (irradiance humidity wind_speed ambient_temp tilt_angle : A)
    (season : string) : M A :=
  let* coeff := getitem coefficients season in
  let optimal_tilt :=
    if bool_decide (season ∈ ["winter"; "spring"]) then of_int 30 else of_int 20 in
  ret (c_irr coeff * irradiance +
       c_hum coeff * humidity +
       c_wind coeff * wind_speed +
       c_temp coeff * ambient_temp +
       c_tilt coeff * nabs (tilt_angle - optimal_tilt))%num.

Definition generate_seasonal_data
    (season : string) (months : list string) (feature_ranges : Ranges)
    (year : Z) : M DataFrame :=
  for_ months (λ data month,
    let* days := get_days_in_month month year in
    for_ (range 1 (days + 1)) (λ data day,
      let* irr := np_random_uniform (irradiance_range feature_ranges) in
      let* hum := np_random_uniform (humidity_range feature_ranges) in
      let* wind := np_random_uniform (wind_speed_range feature_ranges) in
      let* temp := np_random_uniform (ambient_temperature_range feature_ranges) in
      let* tilt := np_random_uniform (tilt_angle_range feature_ranges) in
      let* kwh := calc_kwh_generalized irr hum wind temp tilt season in
      let* num := getitem MONTH_NAME_TO_NUM month in
      ret (data ++ [{| date := str year +:+ "-" +:+ format_02d num
                               +:+ "-" +:+ format_02d day;
                       irradiance := round2 irr;
                       humidity := round2 hum;
                       wind_speed := round2 wind;
                       ambient_temperature := round2 temp;
                       tilt_angle := round2 tilt;
                       kwh := round2 kwh;
                       season := season;
                       month := month;
                       day := day |}])) data) [].

(** *** The script body (sidebar onwards) *)

(** What the widgets return in one run of the script. *)
Record Inputs := {
  selected_season : string;
  selected_year : Z;
  use_custom_params : bool;
  sliders : Ranges;
  generate_clicked : bool;
}.

Definition emit (e : Element) : M () :=
  λ w, (Ok (), {| rng_pos := rng_pos w;
                  seasons_config := seasons_config w;
                  session_state := session_state w;
                  page := page w ++ [e] |}).

Definition get_seasons_config : M (gmap string SeasonConfig) :=
  λ w, (Ok (seasons_config w), w).

Definition put_seasons_config (c : gmap string SeasonConfig) : M () :=
  λ w, (Ok (), {| rng_pos := rng_pos w;
                  seasons_config := c;
                  session_state := session_state w;
                  page := page w |}).

Definition get_session_state : M (gmap string SessionValue) :=
  λ w, (Ok (session_state w), w).

(** [st.session_state.k = v] *)
Definition session_set (k : string) (v : SessionValue) : M () :=
  λ w, (Ok (), {| rng_pos := rng_pos w;
                  seasons_config := seasons_config w;
                  session_state := <[k := v]> (session_state w);
                  page := page w |}).

Definition prompt : string :=
  "👆 Click 'Generate Solar Data' to start analyzing solar energy production!".

Definition download_file_name (selected_season : string) (selected_year : Z)
    : string :=
  "solar_energy_" +:+ selected_season +:+ "_" +:+ str selected_year +:+ ".csv".

Definition params : list string :=
  ["irradiance"; "humidity"; "wind_speed"; "ambient_temperature"; "tilt_angle"].

(** The first [df['kwh']] (line 228), for what
    [st.session_state.solar_data] holds: a string cannot be indexed by a
    column name, and the frame [pd.DataFrame([])] built from an empty list
    of rows has no columns.  Otherwise the column is there, and the frame is
    handed on. *)
Definition column_kwh (solar_data : SessionValue) : M DataFrame :=
  match solar_data with
  | VStr _ => raise TypeError
  | VDataFrame [] => raise (KeyError "kwh")
  | VDataFrame df => ret df
  end.

(** The marker sizes plotly accepts: numbers [>= 0]. *)
Definition valid_sizes (df : DataFrame) : bool :=
  forallb (λ r, nleb (of_int 0) (kwh r)) df.

(** [px.scatter(df, x=param, y='kwh', ..., size='kwh', ...)]: plotly raises
    [ValueError] for a marker size that is not [>= 0]. *)
Definition px_scatter (df : DataFrame) (param : string) : M Figure :=
  if valid_sizes df then ret (Scatter param "kwh") else raise ValueError.

(** The statistics, charts and download of the DATA DISPLAY block, for the
    value [solar_data] of [st.session_state.solar_data]. *)
Definition data_display (selected_season : string) (selected_year : Z)
    (solar_data : SessionValue) : M () :=
  let* _ := emit (Subheader "📊 Key Metrics") in
  let* df := column_kwh solar_data in
  let* _ := emit (MetricCards df) in
  let* _ := emit (Subheader "📅 Monthly Breakdown") in
  let* _ := emit (MonthlyStats df) in
  let* _ := emit (Subheader "📈 Energy Production Analysis") in
  let* _ := emit (PlotlyChart (Line "date" "kwh") df) in
  let* _ := emit (Subheader "🔥 Parameter Correlation Analysis") in
  let* _ := emit (PlotlyChart (Heatmap ["irradiance"; "humidity"; "wind_speed";
                                      "ambient_temperature"; "tilt_angle";
                                      "kwh"]) df) in
  let* _ := emit (PlotlyChart (Histogram "kwh") df) in
  let* _ := emit (PlotlyChart (Box "month" "kwh") df) in
  let* _ := emit (Subheader "🎯 Parameter Impact Analysis") in
  let* _ := for_ params (λ _ param,
              let* fig := px_scatter df param in
              emit (PlotlyChart fig df)) () in
  let* _ := emit (Subheader "📝 Calculation Formula") in
  let* _ := emit (FormulaCard selected_season) in
  let* _ := emit (Subheader "💾 Download Data") in
  emit (DownloadButton df (download_file_name selected_season selected_year)).

(** The DATA DISPLAY block: [if 'solar_data' in st.session_state: ... else:
    st.info(...)]. *)
Definition display (selected_season : string) (selected_year : Z) : M () :=
  let* state := get_session_state in
  match state !! "solar_data" with
  | Some solar_data => data_display selected_season selected_year solar_data
  | None => emit (Info prompt)
  end.

(** One run of the script, from the page title to the end.  The sidebar
    widgets are the inputs [inp].  Every run executes the whole module, so
    it binds [SEASONS_CONFIG] to the table of line 72 anew before it reads
    it. *)
Definition script (inp : Inputs) : M () :=
  let* _ := emit Title in
  let* _ := put_seasons_config SEASONS_CONFIG in
  let* _ :=
    if use_custom_params inp then
      let* config := get_seasons_config in
      let* season_config := getitem config (selected_season inp) in
      put_seasons_config
        (<[selected_season inp :=
             {| months := months season_config;
                ranges := sliders inp;
                color := color season_config;
                icon := icon season_config |}]> config)
    else ret () in
  let* config := get_seasons_config in
  let* season_info := getitem config (selected_season inp) in
  let* _ := emit (SeasonCard (icon season_info) (selected_season inp)
                    (months season_info) (selected_year inp)) in
  let* _ :=
    if generate_clicked inp then
      let* df_season :=
        generate_seasonal_data (selected_season inp) (months season_info)
          (ranges season_info) (selected_year inp) in
      let* _ := session_set "solar_data" (VDataFrame df_season) in
      session_set "current_season" (VStr (selected_season inp))
    else ret () in
  display (selected_season inp) (selected_year inp).

(** *** Auxiliary definitions for the proofs *)

(** The world after [n] more calls of the random generator. *)
Definition advance (n : nat) w : World :=
  {| rng_pos := n + rng_pos w;
     seasons_config := seasons_config w;
     session_state := session_state w;
     page := page w |}.

(** The value [np.random.uniform] returns when the generator is at
    position [k]. *)
Definition draw (bounds : Z * Z) (k : nat) : A :=
  (of_int bounds.1 + (of_int bounds.2 - of_int bounds.1) * random_sample k)%num.

(** Line 137. *)
Definition optimal_tilt (season : string) : A :=
  if bool_decide (season ∈ ["winter"; "spring"]) then of_int 30 else of_int 20.

(** Lines 139-143. *)
Definition energy (c : Coefficients) (season : string)
    (irr hum wind temp tilt : A) : A :=
  (c_irr c * irr + c_hum c * hum + c_wind c * wind + c_temp c * temp
   + c_tilt c * nabs (tilt - optimal_tilt season))%num.

(** The row appended for [(month, day)] when the generator is at position
    [p]: five draws, the energy of the draws, everything rounded when
    stored. *)
Definition record_at (season : string) (c : Coefficients) (fr : Ranges)
    (year : Z) (p : nat) (month : string) (num day : Z) : DailyRecord :=
  let irr := draw (irradiance_range fr) p in
  let hum := draw (humidity_range fr) (1 + p) in
  let wind := draw (wind_speed_range fr) (2 + p) in
  let temp := draw (ambient_temperature_range fr) (3 + p) in
  let tilt := draw (tilt_angle_range fr) (4 + p) in
  {| date := str year +:+ "-" +:+ format_02d num +:+ "-" +:+ format_02d day;
     irradiance := round2 irr;
     humidity := round2 hum;
     wind_speed := round2 wind;
     ambient_temperature := round2 temp;
     tilt_angle := round2 tilt;
     kwh := round2 (energy c season irr hum wind temp tilt);
     season := season;
     month := month;
     day := day |}.

(** The rows a loop appends when iteration [x] appends [blk p x] at
    generator position [p] and consumes [cost x] random numbers. *)
Fixpoint blocks {X} (blk : nat → X → DataFrame) (cost : X → nat)
    (p : nat) (xs : list X) : DataFrame :=
  match xs with
  | [] => []
  | x :: xs' => blk p x ++ blocks blk cost (cost x + p) xs'
  end.

(** [(month, number, day)] for each day of [month] in [year]. *)
Definition month_calendar (month : string) (year : Z) : list (string * Z * Z) :=
  match MONTH_NAME_TO_NUM !! month with
  | Some num =>
      match monthrange_ndays year num with
      | Ok days => (λ day, (month, num, day)) <$> range 1 (days + 1)
      | Raise _ => []
      end
  | None => []
  end.

Definition season_calendar (months : list string) (year : Z)
    : list (string * Z * Z) :=
  months ≫= (λ month, month_calendar month year).

(** The table for a list of calendar days, with the generator starting at
    position [p]: row [k] uses the random numbers [5k + p .. 5k + p + 4]. *)
Definition season_records (season : string) (c : Coefficients)
    (fr : Ranges) (year : Z) (p : nat) (days : list (string * Z * Z))
    : DataFrame :=
  imap (λ k '(month, num, day),
          record_at season c fr year (5 * k + p) month num day) days.

(** The body of the inner loop (lines 152-171), as a function of the loop
    variables. *)
Definition day_body (season : string) (fr : Ranges) (year : Z)
    (month : string) (data : DataFrame) (day : Z) : M (DataFrame) :=
  bind (np_random_uniform (irradiance_range fr)) (λ irr,
  bind (np_random_uniform (humidity_range fr)) (λ hum,
  bind (np_random_uniform (wind_speed_range fr)) (λ wind,
  bind (np_random_uniform (ambient_temperature_range fr)) (λ temp,
  bind (np_random_uniform (tilt_angle_range fr)) (λ tilt,
  bind (calc_kwh_generalized irr hum wind temp tilt season) (λ kwh,
  bind (getitem MONTH_NAME_TO_NUM month) (λ num,
  ret (data ++ [{| date := str year +:+ "-" +:+ format_02d num
                           +:+ "-" +:+ format_02d day;
                   irradiance := round2 irr;
                   humidity := round2 hum;
                   wind_speed := round2 wind;
                   ambient_temperature := round2 temp;
                   tilt_angle := round2 tilt;
                   kwh := round2 kwh;
                   season := season;
                   month := month;
                   day := day |}])))))))).

(** Whatever the arguments: every row of a table the generator returns is
    a [record_at] row of one of the months, for a season the coefficient
    table knows. *)
Definition generated_row (season : string) (months : list string)
    (fr : Ranges) (year : Z) (r : DailyRecord) : Prop :=
  ∃ c p month num day,
    coefficients !! season = Some c ∧ month ∈ months
    ∧ MONTH_NAME_TO_NUM !! month = Some num
    ∧ r = record_at season c fr year p month num day.

(** The world with [es] rendered after what is already on the page. *)
Definition render (es : list (Element)) (w : World) : World :=
  {| rng_pos := rng_pos w;
     seasons_config := seasons_config w;
     session_state := session_state w;
     page := page w ++ es |}.

(** What the statistics branch has put on the page when it reaches the
    scatter charts. *)
Definition data_page_charts (df : DataFrame) : list Element :=
  [Subheader "📊 Key Metrics"; MetricCards df;
   Subheader "📅 Monthly Breakdown"; MonthlyStats df;
   Subheader "📈 Energy Production Analysis";
   PlotlyChart (Line "date" "kwh") df;
   Subheader "🔥 Parameter Correlation Analysis";
   PlotlyChart (Heatmap ["irradiance"; "humidity"; "wind_speed";
                         "ambient_temperature"; "tilt_angle"; "kwh"]) df;
   PlotlyChart (Histogram "kwh") df;
   PlotlyChart (Box "month" "kwh") df;
   Subheader "🎯 Parameter Impact Analysis"].

(** What the statistics branch puts on the page when it runs to its end. *)
Definition data_page (selected_season : string) (selected_year : Z)
    (df : DataFrame) : list Element :=
  [Subheader "📊 Key Metrics"; MetricCards df;
   Subheader "📅 Monthly Breakdown"; MonthlyStats df;
   Subheader "📈 Energy Production Analysis";
   PlotlyChart (Line "date" "kwh") df;
   Subheader "🔥 Parameter Correlation Analysis";
   PlotlyChart (Heatmap ["irradiance"; "humidity"; "wind_speed";
                         "ambient_temperature"; "tilt_angle"; "kwh"]) df;
   PlotlyChart (Histogram "kwh") df;
   PlotlyChart (Box "month" "kwh") df;
   Subheader "🎯 Parameter Impact Analysis";
   PlotlyChart (Scatter "irradiance" "kwh") df;
   PlotlyChart (Scatter "humidity" "kwh") df;
   PlotlyChart (Scatter "wind_speed" "kwh") df;
   PlotlyChart (Scatter "ambient_temperature" "kwh") df;
   PlotlyChart (Scatter "tilt_angle" "kwh") df;
   Subheader "📝 Calculation Formula"; FormulaCard selected_season;
   Subheader "💾 Download Data";
   DownloadButton df (download_file_name selected_season selected_year)].

(** Statistics and charts: everything [data_page] holds except headings. *)
Definition is_statistic (e : Element) : bool :=
  match e with
  | MetricCards _ | MonthlyStats _ | PlotlyChart _ _ | FormulaCard _
  | DownloadButton _ _ => true
  | _ => false
  end.

End Program.

Arguments DailyRecord : clear implicits.
Abbreviation DataFrame A := (list (DailyRecord A)).
Arguments World : clear implicits.
Arguments Coefficients : clear implicits.

(** ** Bounds on stored parameters, in exact arithmetic *)

(** [min <= x <= max] for a [(min, max)] pair. *)
Definition within (bounds : Z * Z) (x : Q) : Prop :=
  (inject_Z bounds.1 <= x <= inject_Z bounds.2)%Q.

(** [min <= x < max]. *)
Definition strictly_within (bounds : Z * Z) (x : Q) : Prop :=
  (inject_Z bounds.1 <= x < inject_Z bounds.2)%Q.


(** Every range has [min <= max], as a range slider guarantees. *)
Definition ordered (fr : Ranges) : Prop :=
  (irradiance_range fr).1 ≤ (irradiance_range fr).2
  ∧ (humidity_range fr).1 ≤ (humidity_range fr).2
  ∧ (wind_speed_range fr).1 ≤ (wind_speed_range fr).2
  ∧ (ambient_temperature_range fr).1 ≤ (ambient_temperature_range fr).2
  ∧ (tilt_angle_range fr).1 ≤ (tilt_angle_range fr).2.

(** [random_sample()] returns numbers of the half-open interval [[0, 1)]. *)
Definition unit_samples (random_sample : nat → Q) : Prop :=
  ∀ k, (0 <= random_sample k < 1)%Q.

(** ** Sample inputs *)

(** A session that has just started: nothing drawn, the table as the module
    defines it, nothing stored, nothing rendered. *)
Definition fresh_world {A} `{Number A} : World A :=
  {| rng_pos := 0;
     seasons_config := SEASONS_CONFIG;
     session_state := ∅;
     page := [] |}.

(** A session in which an earlier run has put the winter ranges on
    summer. *)
Definition overridden_world {A} `{Number A} : World A :=
  {| rng_pos := 0;
     seasons_config :=
       <["summer" := {| months := ["June"; "July"; "August"];
                        ranges := {| irradiance_range := (300, 700);
                                     humidity_range := (30, 70);
                                     wind_speed_range := (1, 6);
                                     ambient_temperature_range := (5, 20);
                                     tilt_angle_range := (10, 40) |};
                        color := "#f39c12"; icon := "☀️" |}]> SEASONS_CONFIG;
     session_state := ∅;
     page := [] |}.

Definition winter_months_list : list string :=
  ["November"; "December"; "January"; "February"].

Definition winter_ranges : Ranges :=
  {| irradiance_range := (300, 700);
     humidity_range := (30, 70);
     wind_speed_range := (1, 6);
     ambient_temperature_range := (5, 20);
     tilt_angle_range := (10, 40) |}.


(** A generator that always returns one half. *)
Definition halves : nat → Q := λ _, (1 # 2)%Q.


(** The same generator in binary64; both numbers are exact doubles. *)
Definition near_one_binary64 : nat → float :=
  λ k, match k with O => nearest_float 1048575 1048576 | _ => nearest_float 1 2 end.

(** A generator whose first five numbers, all multiples of [2^-17], give
    the winter draws 500.0030517578125, 50, 2.298828125, 8.75 and 25. *)
Definition off_grid : nat → Q :=
  λ k, match k with
       | 0%nat => (65537 # 131072)%Q
       | 1%nat => (1 # 2)%Q
       | 2%nat => (133 # 512)%Q
       | 3%nat => (1 # 4)%Q
       | _ => (1 # 2)%Q
       end.

(** The same generator in binary64; every number is an exact double. *)
Definition off_grid_binary64 : nat → float :=
  λ k, match k with
       | 0%nat => nearest_float 65537 131072
       | 1%nat => nearest_float 1 2
       | 2%nat => nearest_float 133 512
       | 3%nat => nearest_float 1 4
       | _ => nearest_float 1 2
       end.

(** ** Comparing results *)

(** Two results are related when both return related values or both raise
    the same exception. *)
Definition result_rel {X} (R : X → X → Prop) (a b : result X) : Prop :=
  match a, b with
  | Ok x, Ok y => R x y
  | Raise e, Raise e' => e = e'
  | _, _ => False
  end.

(** The season names [calc_kwh_generalized] has coefficients for. *)
Definition season_names : list string := ["winter"; "spring"; "summer"; "autumn"].

(** [stored] is [x] rounded to two decimals: a whole number of hundredths
    at most half a hundredth away from [x]. *)
Definition rounded_from (x stored : Q) : Prop :=
  (∃ n : Z, stored == n # 100)%Q ∧ (Qabs (stored - x) <= 1 # 200)%Q.

(** ** What a computation leaves alone *)

(** [m] relates the state it is run in to the state it leaves by [R],
    whether it returns or raises. *)
Definition keeps {A X} (R : World A → World A → Prop) (m : M (A:=A) X) : Prop :=
  ∀ w r w', m w = (r, w') → R w w'.

(** No random number drawn, nothing stored in the session. *)
Definition same_draws_and_session {A} (w w' : World A) : Prop :=
  rng_pos w' = rng_pos w ∧ session_state w' = session_state w.

(** [SEASONS_CONFIG] untouched. *)
Definition same_config {A} (w w' : World A) : Prop :=
  seasons_config w' = seasons_config w.

(** The entry of the selected season as the rest of a run sees it: with the
    slider ranges when custom parameters are switched on. *)
Definition effective_config (inp : Inputs) (cfg : SeasonConfig)
    : SeasonConfig :=
  if use_custom_params inp then
    {| months := months cfg; ranges := sliders inp;
       color := color cfg; icon := icon cfg |}
  else cfg.

(** ** The generator, run *)

Section Generator.
Context {A : Type} `{Number A}.
Variable random_sample : nat → A.

Implicit Types (w : World A) (df data : DataFrame A) (r : DailyRecord A).

Lemma advance_0 w : advance 0 w = w.
Proof. by destruct w. Qed.

Lemma advance_advance n m w : advance n (advance m w) = advance (m + n) w.
Proof. unfold advance; simpl. f_equal. lia. Qed.

Lemma rng_pos_advance n w : rng_pos (advance n w) = (n + rng_pos w)%nat.
Proof. done. Qed.

Lemma bind_Ok {X Y} (m : M X) (k : X → M Y) w x w' :
  m w = (Ok x, w') → bind m k w = k x w'.
Proof. unfold bind. by intros ->. Qed.

Lemma bind_Raise {X Y} (m : M X) (k : X → M Y) w e w' :
  m w = (Raise e, w') → bind m k w = (Raise e, w').
Proof. unfold bind. by intros ->. Qed.

(** A bind that returns: both halves returned. *)
Lemma bind_inv {X Y} (m : M X) (k : X → M Y) w y w'' :
  bind m k w = (Ok y, w'') →
  ∃ x w', m w = (Ok x, w') ∧ k x w' = (Ok y, w'').
Proof.
  unfold bind. destruct (m w) as [[x|e] w'] eqn:E; [eauto | done].
Qed.

Lemma getitem_Some {V} (d : gmap string V) k v w :
  d !! k = Some v → getitem d k w = (Ok v, w).
Proof. unfold getitem. by intros ->. Qed.

Lemma getitem_inv {V} (d : gmap string V) k v w w' :
  getitem d k w = (Ok v, w') → d !! k = Some v ∧ w' = w.
Proof.
  unfold getitem. destruct (d !! k); unfold ret, raise; naive_solver.
Qed.

Lemma np_random_uniform_run bounds w :
  np_random_uniform random_sample bounds w
  = (Ok (draw random_sample bounds (rng_pos w)), advance 1 w).
Proof. done. Qed.

Lemma calc_kwh_generalized_run c season irr hum wind temp tilt w :
  coefficients !! season = Some c →
  calc_kwh_generalized irr hum wind temp tilt season w
  = (Ok (energy c season irr hum wind temp tilt), w).
Proof.
  intros Hc. unfold calc_kwh_generalized.
  by rewrite (bind_Ok _ _ _ _ _ (getitem_Some _ _ _ w Hc)).
Qed.

Lemma calc_kwh_generalized_inv season irr hum wind temp tilt w v w' :
  calc_kwh_generalized irr hum wind temp tilt season w = (Ok v, w') →
  ∃ c, coefficients !! season = Some c
       ∧ v = energy c season irr hum wind temp tilt ∧ w' = w.
Proof.
  unfold calc_kwh_generalized. intros (c & w1 & Hg & Hr)%bind_inv.
  apply getitem_inv in Hg as [Hc ->]. unfold ret in Hr.
  exists c. by simplify_eq.
Qed.

(** *** Loops *)

(** A property of the accumulated variable that every returning iteration
    preserves holds when the loop returns. *)
Lemma for_invariant {X S} (P : S → Prop) (body : S → X → M S) xs :
  (∀ s x w s' w', x ∈ xs → P s → body s x w = (Ok s', w') → P s') →
  ∀ s w s' w', P s → for_ xs body s w = (Ok s', w') → P s'.
Proof.
  induction xs as [|x xs IH]; intros Hbody s w s' w' Hs; simpl.
  - unfold ret. by intros [= <- _].
  - intros (s1 & w1 & Hb & Hrest)%bind_inv.
    eapply IH; [| |exact Hrest].
    + intros ????? Hin. apply Hbody. by right.
    + eapply Hbody; [by left | exact Hs | exact Hb].
Qed.

Lemma for_blocks {X} (blk : nat → X → DataFrame A) (cost : X → nat)
    (body : DataFrame A → X → M (DataFrame A)) xs :
  (∀ data x w, x ∈ xs →
     body data x w = (Ok (data ++ blk (rng_pos w) x), advance (cost x) w)) →
  ∀ data w,
    for_ xs body data w
    = (Ok (data ++ blocks blk cost (rng_pos w) xs),
       advance (sum_list_with cost xs) w).
Proof.
  induction xs as [|x xs IH]; intros Hbody data w; simpl.
  - by rewrite app_nil_r, advance_0.
  - erewrite bind_Ok; [|apply Hbody; by left].
    rewrite IH; [|intros ???? ; apply Hbody; by right].
    by rewrite advance_advance, <- (assoc_L (++)).
Qed.

(** *** The calendar the generator walks *)

Lemma monthrange_ndays_Ok year month num :
  MONTH_NAME_TO_NUM !! month = Some num →
  ∃ days, monthrange_ndays year num = Ok days ∧ 28 ≤ days ≤ 31.
Proof.
  intros Hm. apply elem_of_list_to_map_2 in Hm.
  unfold monthrange_ndays.
  repeat (apply elem_of_cons in Hm as [[= -> ->]|Hm]);
    try (by apply elem_of_nil in Hm);
    simpl; try (eexists; split; [reflexivity|lia]).
  destruct (isleap year); eexists; (split; [reflexivity|simpl; lia]).
Qed.

Lemma get_days_in_month_run month year num days w :
  MONTH_NAME_TO_NUM !! month = Some num →
  monthrange_ndays year num = Ok days →
  get_days_in_month month year w = (Ok days, w).
Proof.
  intros Hm Hd. unfold get_days_in_month.
  erewrite bind_Ok; [|by apply getitem_Some]. by rewrite Hd.
Qed.

Lemma get_days_in_month_inv month year days w w' :
  get_days_in_month month year w = (Ok days, w') →
  ∃ num, MONTH_NAME_TO_NUM !! month = Some num
         ∧ monthrange_ndays year num = Ok days ∧ w' = w.
Proof.
  unfold get_days_in_month. intros (num & w1 & Hg & Hr)%bind_inv.
  apply getitem_inv in Hg as [Hm ->]. exists num.
  destruct (monthrange_ndays year num); unfold ret, raise in Hr; naive_solver.
Qed.

(** *** The generator *)

Lemma blocks_imap {X Y} (g : nat → Y → DailyRecord A) (h : X → list Y) p xs :
  blocks (λ p x, imap (λ k y, g (5 * k + p)%nat y) (h x))
         (λ x, (5 * length (h x))%nat) p xs
  = imap (λ k y, g (5 * k + p)%nat y) (xs ≫= h).
Proof.
  revert p. induction xs as [|x xs IH]; intros p; [done|].
  cbn [blocks]. rewrite bind_cons, imap_app, IH. f_equal.
  apply imap_ext. intros k y _.
  by replace (5 * k + (5 * length (h x) + p))%nat
    with (5 * (length (h x) + k) + p)%nat by lia.
Qed.

Lemma sum_list_with_bind {X Y} (h : X → list Y) (xs : list X) :
  sum_list_with (λ x, (5 * length (h x))%nat) xs = (5 * length (xs ≫= h))%nat.
Proof.
  induction xs as [|x xs IH]; [done|].
  rewrite bind_cons, length_app. cbn [sum_list_with]. rewrite IH. lia.
Qed.

Lemma blocks_singleton {X} (g : nat → X → DailyRecord A) p xs :
  blocks (λ p x, [g p x]) (λ _, 5%nat) p xs
  = imap (λ k x, g (5 * k + p)%nat x) xs.
Proof.
  revert p. induction xs as [|x xs IH]; intros p; [done|].
  cbn [blocks]. rewrite imap_cons, IH. simpl. f_equal.
  apply imap_ext. intros k y _. simpl. f_equal. lia.
Qed.

Lemma sum_list_with_const {X} (xs : list X) :
  sum_list_with (λ _, 5%nat) xs = (5 * length xs)%nat.
Proof. induction xs as [|x xs IH]; [done|]. simpl in *. lia. Qed.

Lemma generate_seasonal_data_unfold season months fr year :
  generate_seasonal_data random_sample season months fr year
  = for_ months (λ data month,
      bind (get_days_in_month month year) (λ days,
        for_ (range 1 (days + 1)) (day_body random_sample season fr year month) data)) [].
Proof. reflexivity. Qed.

Lemma day_body_run season c fr year month num day data w :
  coefficients !! season = Some c →
  MONTH_NAME_TO_NUM !! month = Some num →
  day_body random_sample season fr year month data day w
  = (Ok (data ++ [record_at random_sample season c fr year (rng_pos w) month num day]),
     advance 5 w).
Proof.
  intros Hc Hm. unfold day_body.
  do 5 (erewrite bind_Ok; [|apply np_random_uniform_run]).
  erewrite bind_Ok; [|by apply calc_kwh_generalized_run].
  erewrite bind_Ok; [|by apply getitem_Some].
  reflexivity.
Qed.

Lemma day_body_inv season fr year month day data w data' w' :
  day_body random_sample season fr year month data day w = (Ok data', w') →
  ∃ c num, coefficients !! season = Some c
           ∧ MONTH_NAME_TO_NUM !! month = Some num
           ∧ data' = data ++ [record_at random_sample season c fr year (rng_pos w) month num day].
Proof.
  intros Hrun.
  destruct (coefficients !! season) as [c|] eqn:Hc.
  - destruct (MONTH_NAME_TO_NUM !! month) as [num|] eqn:Hm.
    + rewrite (day_body_run _ c _ _ _ num) in Hrun by done.
      exists c, num. by simplify_eq.
    + unfold day_body in Hrun.
      do 5 (erewrite bind_Ok in Hrun; [|apply np_random_uniform_run]).
      erewrite bind_Ok in Hrun; [|by apply calc_kwh_generalized_run].
      unfold bind, getitem in Hrun. by rewrite Hm in Hrun.
  - unfold day_body in Hrun.
    do 5 (erewrite bind_Ok in Hrun; [|apply np_random_uniform_run]).
    unfold bind at 1, calc_kwh_generalized, bind at 1, getitem in Hrun.
    by rewrite Hc in Hrun.
Qed.

(** The generator on a valid season and valid month names: it returns, the
    table is [season_records] over the calendar of the months, and five
    random numbers are consumed per row. *)
Theorem generate_seasonal_data_run season c months fr year w :
  coefficients !! season = Some c →
  Forall (λ month, is_Some (MONTH_NAME_TO_NUM !! month)) months →
  generate_seasonal_data random_sample season months fr year w
  = (Ok (season_records random_sample season c fr year (rng_pos w)
           (season_calendar months year)),
     advance (5 * length (season_calendar months year)) w).
Proof.
  intros Hc Hmonths. rewrite generate_seasonal_data_unfold.
  rewrite (for_blocks
    (λ p month, season_records random_sample season c fr year p (month_calendar month year))
    (λ month, (5 * length (month_calendar month year))%nat)).
  - unfold season_records, season_calendar.
    rewrite sum_list_with_bind. f_equal. f_equal.
    apply (blocks_imap (λ q '(month, num, day),
                          record_at random_sample season c fr year q month num day)).
  - intros data month w1 Hin.
    rewrite Forall_forall in Hmonths.
    destruct (Hmonths month Hin) as [num Hm].
    destruct (monthrange_ndays_Ok year month num Hm) as (days & Hd & _).
    erewrite bind_Ok; [|by eapply get_days_in_month_run].
    rewrite (for_blocks
      (λ p day, [record_at random_sample season c fr year p month num day]) (λ _, 5%nat)).
    + unfold season_records, month_calendar. rewrite Hm, Hd.
      rewrite blocks_singleton, sum_list_with_const, imap_fmap, length_fmap.
      done.
    + intros data' day w2 _. by apply day_body_run.
Qed.

Theorem generate_seasonal_data_rows season months fr year w df w' :
  generate_seasonal_data random_sample season months fr year w = (Ok df, w') →
  Forall (generated_row random_sample season months fr year) df.
Proof.
  rewrite generate_seasonal_data_unfold.
  apply for_invariant; [|constructor].
  intros data month w1 data1 w1' Hin Hdata
    (days & w2 & _ & Hloop)%bind_inv.
  revert Hloop. apply for_invariant; [|done].
  intros data2 day w3 data3 w3' _ Hdata2 (c & num & Hc & Hm & ->)%day_body_inv.
  apply Forall_app; split; [done|].
  apply Forall_singleton. by exists c, (rng_pos w3), month, num, day.
Qed.

(** *** Shape of the table *)

Lemma season_records_cons season c fr year p month num day days :
  season_records random_sample season c fr year p ((month, num, day) :: days)
  = record_at random_sample season c fr year p month num day
    :: season_records random_sample season c fr year (5 + p) days.
Proof.
  unfold season_records. rewrite imap_cons. f_equal.
  apply imap_ext. intros k [[m n] d] _. simpl. f_equal. lia.
Qed.

Lemma season_records_length season c fr year p days :
  length (season_records random_sample season c fr year p days) = length days.
Proof. apply length_imap. Qed.

Lemma season_records_lookup season c fr year p days k month num day :
  days !! k = Some (month, num, day) →
  season_records random_sample season c fr year p days !! k
  = Some (record_at random_sample season c fr year (5 * k + p) month num day).
Proof. intros Hk. unfold season_records. by rewrite list_lookup_imap, Hk. Qed.

Lemma season_records_month_day season c fr year p days :
  (λ r, (month r, day r)) <$> season_records random_sample season c fr year p days
  = (λ x, (x.1.1, x.2)) <$> days.
Proof.
  revert p. induction days as [|[[m n] d] days IH]; intros p; [done|].
  rewrite season_records_cons, !fmap_cons, IH. done.
Qed.

Lemma season_records_month season c fr year p days :
  month <$> season_records random_sample season c fr year p days = (λ x, x.1.1) <$> days.
Proof.
  revert p. induction days as [|[[m n] d] days IH]; intros p; [done|].
  rewrite season_records_cons, !fmap_cons, IH. done.
Qed.

Lemma season_records_filter_month season c fr year p days m :
  length (filter (λ r, month r = m) (season_records random_sample season c fr year p days))
  = length (filter (λ x, x.1.1 = m) days).
Proof.
  revert p. induction days as [|[[m' n] d] days IH]; intros p; [done|].
  rewrite season_records_cons, !filter_cons. simpl.
  destruct (decide (m' = m)); simpl; by rewrite IH.
Qed.

End Generator.

(** ** The calendar of the code and the Gregorian calendar *)

Lemma isleap_leap_year year : isleap year = bool_decide (leap_year year).
Proof.
  unfold isleap.
  destruct (Z.eqb_spec (year mod 4) 0), (Z.eqb_spec (year mod 100) 0),
    (Z.eqb_spec (year mod 400) 0); simpl; symmetry;
    (apply bool_decide_eq_true || apply bool_decide_eq_false);
    unfold leap_year; rewrite <- !Z.mod_divide by done; tauto.
Qed.

(** [calendar.monthrange] on the number of a month name gives the Gregorian
    length of that month. *)
Lemma monthrange_days_in_month month num year :
  MONTH_NAME_TO_NUM !! month = Some num →
  monthrange_ndays year num = Ok (days_in_month month year).
Proof.
  intros Hm. apply elem_of_list_to_map_2 in Hm.
  repeat (apply elem_of_cons in Hm as [[= -> ->]|Hm]);
    try (by apply elem_of_nil in Hm); try reflexivity.
  unfold monthrange_ndays, days_in_month. simpl.
  rewrite isleap_leap_year. by destruct (bool_decide (leap_year year)).
Qed.

Lemma days_in_month_bounds month year : 28 ≤ days_in_month month year ≤ 31.
Proof. unfold days_in_month. repeat case_bool_decide; lia. Qed.

Lemma month_calendar_eq month num year :
  MONTH_NAME_TO_NUM !! month = Some num →
  month_calendar month year
  = (λ day, (month, num, day)) <$> range 1 (days_in_month month year + 1).
Proof.
  intros Hm. unfold month_calendar.
  by rewrite Hm, (monthrange_days_in_month month num year Hm).
Qed.

Lemma range_length lo hi : lo ≤ hi → Z.of_nat (length (range lo hi)) = hi - lo.
Proof. intros. unfold range. rewrite length_seqZ. lia. Qed.

Lemma season_calendar_length months year :
  Forall (λ month, is_Some (MONTH_NAME_TO_NUM !! month)) months →
  Z.of_nat (length (season_calendar months year))
  = Zsum ((λ month, days_in_month month year) <$> months).
Proof.
  unfold season_calendar.
  induction 1 as [|month months [num Hm] _ IH]; [done|].
  rewrite bind_cons, length_app, fmap_cons, Nat2Z.inj_add, IH. simpl.
  rewrite (month_calendar_eq month num year Hm), length_fmap, range_length.
  - lia.
  - pose proof (days_in_month_bounds month year). lia.
Qed.

(** ** The season table *)

Lemma SEASONS_CONFIG_inv season cfg :
  SEASONS_CONFIG !! season = Some cfg → (season, cfg) ∈ SEASONS_CONFIG_items.
Proof. apply elem_of_list_to_map_2. Qed.

(** Every key of [SEASONS_CONFIG] is a key of the coefficient table, and the
    months of every entry are keys of [MONTH_NAME_TO_NUM]. *)
Lemma SEASONS_CONFIG_valid {A} `{Number A} season cfg :
  SEASONS_CONFIG !! season = Some cfg →
  is_Some (coefficients (A:=A) !! season)
  ∧ Forall (λ month, is_Some (MONTH_NAME_TO_NUM !! month)) (months cfg).
Proof.
  intros Hs%SEASONS_CONFIG_inv.
  repeat (apply elem_of_cons in Hs as [[= -> ->]|Hs]);
    try (by apply elem_of_nil in Hs);
    (split; [by eexists | repeat constructor; by eexists]).
Qed.



Lemma winter_months cfg :
  SEASONS_CONFIG !! "winter" = Some cfg →
  months cfg = ["November"; "December"; "January"; "February"].
Proof.
  intros Hs%SEASONS_CONFIG_inv.
  repeat (apply elem_of_cons in Hs as [Hs|Hs]; [by simplify_eq|]).
  by apply elem_of_nil in Hs.
Qed.

(** ** Dates as strings, and the order of the months *)

(** Comparing two strings that start with the same prefix compares the
    rests. *)
Lemma compare_app_prefix (s a b : string) :
  String.compare (s +:+ a) (s +:+ b) = String.compare a b.
Proof.
  induction s as [|ch s IH]; [done|]. simpl.
  unfold Ascii.compare. by rewrite N.compare_refl.
Qed.

Lemma ltb_app_prefix (s a b : string) :
  String.ltb (s +:+ a) (s +:+ b) = String.ltb a b.
Proof. unfold String.ltb. by rewrite compare_app_prefix. Qed.

Lemma season_calendar_months months year :
  Forall (λ month, is_Some (MONTH_NAME_TO_NUM !! month)) months →
  (λ x, x.1.1) <$> season_calendar months year
  = months ≫= (λ month, replicate (Z.to_nat (days_in_month month year)) month).
Proof.
  unfold season_calendar.
  induction 1 as [|month months [num Hm] _ IH]; [done|].
  rewrite !bind_cons, fmap_app, IH. f_equal.
  rewrite (month_calendar_eq month num year Hm), <- list_fmap_compose.
  rewrite (const_fmap _ _ month) by done.
  f_equal. unfold range. rewrite length_seqZ. lia.
Qed.

(** ** The display guard *)

Section Display.
Context {A : Type} `{Number A}.

Lemma render_render es1 es2 (w : World A) :
render es2 (render es1 w) = render (es1 ++ es2) w.
Proof. unfold render; simpl. by rewrite (assoc_L (++)). Qed.

Lemma emit_run e (w : World A) : emit e w = (Ok (), render [e] w).
Proof. done. Qed.

Lemma render_nil (w : World A) : render [] w = w.
Proof. destruct w. unfold render; simpl. by rewrite app_nil_r. Qed.

Lemma bind_emit {Y} e (k : () → M Y) (w : World A) :
bind (emit e) k w = k () (render [e] w).
Proof. done. Qed.

(** A loop that only renders. *)
Lemma for_emit {X} (f : X → Element) xs (w : World A) :
for_ xs (λ _ x, emit (f x)) () w = (Ok (), render (f <$> xs) w).
Proof.
revert w. induction xs as [|x xs IH]; intros w; simpl.
- by rewrite render_nil.
- by rewrite bind_emit, IH, render_render.
Qed.

(** The scatter charts of a frame plotly accepts. *)
Lemma for_px_scatter_valid df xs (w : World A) :
valid_sizes df = true →
for_ xs (λ _ param, bind (px_scatter df param)
                      (λ fig, emit (PlotlyChart fig df))) () w
= (Ok (), render ((λ param, PlotlyChart (Scatter param "kwh") df) <$> xs) w).
Proof.
intros Hv. revert w. induction xs as [|x xs IH]; intros w; simpl.
- by rewrite render_nil.
- unfold px_scatter at 1. rewrite Hv.
  erewrite bind_Ok; [|erewrite bind_Ok; [|reflexivity]; apply emit_run].
  by rewrite IH, render_render.
Qed.

(** The first scatter chart of a frame plotly refuses. *)
Lemma for_px_scatter_invalid df x xs (w : World A) :
valid_sizes df = false →
for_ (x :: xs) (λ _ param, bind (px_scatter df param)
                             (λ fig, emit (PlotlyChart fig df))) () w
= (Raise ValueError, w).
Proof. intros Hv. simpl. unfold bind, px_scatter. by rewrite Hv. Qed.

Lemma data_display_frame selected_season selected_year r df (w : World A) :
data_display selected_season selected_year (VDataFrame (r :: df)) w
= if valid_sizes (r :: df)
  then (Ok (), render (data_page selected_season selected_year (r :: df)) w)
  else (Raise ValueError, render (data_page_charts (r :: df)) w).
Proof.
unfold data_display.
rewrite bind_emit; cbn beta.
erewrite bind_Ok; [|reflexivity].
repeat (rewrite bind_emit; cbn beta).
destruct (valid_sizes (r :: df)) eqn:Hv.
- erewrite bind_Ok; [|by apply for_px_scatter_valid].
  repeat (rewrite bind_emit; cbn beta).
  rewrite emit_run, !render_render. done.
- erewrite bind_Raise; [|by apply for_px_scatter_invalid].
  rewrite !render_render. done.
Qed.

(** What the statistics branch does, by what ['solar_data'] holds. *)
Lemma data_display_run selected_season selected_year v (w : World A) :
data_display selected_season selected_year v w
= match v with
  | VStr _ => (Raise TypeError, render [Subheader "📊 Key Metrics"] w)
  | VDataFrame [] =>
      (Raise (KeyError "kwh"), render [Subheader "📊 Key Metrics"] w)
  | VDataFrame df =>
      if valid_sizes df
      then (Ok (), render (data_page selected_season selected_year df) w)
      else (Raise ValueError, render (data_page_charts df) w)
  end.
Proof.
destruct v as [[|r df]|s]; [done|apply data_display_frame|done].
Qed.

(** The statistics branch renders a list of elements, and never the
    prompt. *)
Lemma data_display_page selected_season selected_year v (w : World A) r w' :
data_display selected_season selected_year v w = (r, w') →
∃ es, w' = render es w ∧ Info prompt ∉ es.
Proof.
rewrite data_display_run. intros Hrun.
assert (∀ es : list (Element (A:=A)),
          Forall (λ e, e ≠ Info prompt) es → Info prompt ∉ es) as Hnot.
{ intros es Hes Hin. rewrite Forall_forall in Hes. by apply (Hes _ Hin). }
destruct v as [[|r0 df]|s]; [| |];
  [|destruct (valid_sizes (r0 :: df))|];
  injection Hrun as <- <-; eexists; (split; [reflexivity|]);
  apply Hnot; unfold data_page, data_page_charts; by repeat constructor.
Qed.

Lemma display_None selected_season selected_year (w : World A) :
session_state w !! "solar_data" = None →
display selected_season selected_year w = (Ok (), render [Info prompt] w).
Proof. intros Hs. unfold display, bind, get_session_state. by rewrite Hs. Qed.

Lemma display_Some selected_season selected_year v (w : World A) :
session_state w !! "solar_data" = Some v →
display selected_season selected_year w
= data_display selected_season selected_year v w.
Proof. intros Hs. unfold display, bind, get_session_state. by rewrite Hs. Qed.

End Display.

(** ** Rounding and drawing in exact arithmetic *)

Lemma div_half_even_lower a b n : 0 < b → n * b ≤ a → n ≤ div_half_even a b.
Proof.
  intros Hb Hn. unfold div_half_even.
  assert (n ≤ a / b) by (apply Z.div_le_lower_bound; lia).
  destruct (2 * (a mod b) ?= b); [destruct (Z.even (a / b))| |]; lia.
Qed.

Lemma div_half_even_upper a b n : 0 < b → a ≤ n * b → div_half_even a b ≤ n.
Proof.
  intros Hb Hn. unfold div_half_even.
  pose proof (Z.div_mod a b ltac:(lia)) as Hdm.
  pose proof (Z.mod_pos_bound a b Hb) as Hm.
  assert (a / b ≤ n) by nia.
  destruct (Z.compare_spec (2 * (a mod b)) b) as [Heq|Hlt|Hgt];
    [destruct (Z.even (a / b))| |]; try lia;
    (assert (a / b < n) by nia); lia.
Qed.

(** [round(x, 2)] never crosses an integer. *)
Lemma Qround2_lower (n : Z) (x : Q) :
  (inject_Z n <= x)%Q → (inject_Z n <= Qround2 x)%Q.
Proof.
  destruct x as [p q]. unfold Qround2, Qround_half_even, Qle. simpl.
  intros Hn. rewrite Z.mul_1_r.
  assert (100 * n ≤ div_half_even (p * 100) (Z.pos (q * 1)))
    by (apply div_half_even_lower; lia).
  lia.
Qed.

Lemma Qround2_upper (n : Z) (x : Q) :
  (x <= inject_Z n)%Q → (Qround2 x <= inject_Z n)%Q.
Proof.
  destruct x as [p q]. unfold Qround2, Qround_half_even, Qle. simpl.
  intros Hn. rewrite Z.mul_1_r.
  assert (div_half_even (p * 100) (Z.pos (q * 1)) ≤ 100 * n)
    by (apply div_half_even_upper; lia).
  lia.
Qed.

(** A draw lies in its range; below the maximum when the range is not a
    single point. *)
Lemma draw_within random_sample bounds k :
  unit_samples random_sample → bounds.1 ≤ bounds.2 →
  within bounds (draw random_sample bounds k).
Proof.
  intros Hu Hb. unfold within, draw. simpl.
  destruct (Hu k) as [H0 H1]. rewrite Zle_Qle in Hb.
  set (lo := inject_Z bounds.1) in *. set (hi := inject_Z bounds.2) in *.
  set (u := random_sample k) in *. split; nra.
Qed.

Lemma draw_strictly_within random_sample bounds k :
  unit_samples random_sample → bounds.1 < bounds.2 →
  strictly_within bounds (draw random_sample bounds k).
Proof.
  intros Hu Hb. unfold strictly_within, draw. simpl.
  destruct (Hu k) as [H0 H1]. rewrite Zlt_Qlt in Hb.
  set (lo := inject_Z bounds.1) in *. set (hi := inject_Z bounds.2) in *.
  set (u := random_sample k) in *. split; nra.
Qed.


(** ** Claims *)

(** C1. For every season of the table and every year, the generator returns
    a table whose number of rows is the sum, over the season's months, of the
    number of days of that month in that year. *)
Theorem C1_record_count {A} `{Number A} (random_sample : nat → A)
    season cfg fr year w :
  SEASONS_CONFIG !! season = Some cfg →
  ∃ df w',
    generate_seasonal_data random_sample season (months cfg) fr year w
    = (Ok df, w')
    ∧ Z.of_nat (length df)
      = Zsum ((λ month, days_in_month month year) <$> months cfg).
Proof.
  intros [[c Hc] Hmonths]%(SEASONS_CONFIG_valid (A:=A)).
  eexists _, _. split.
  - by apply generate_seasonal_data_run.
  - by rewrite season_records_length, season_calendar_length.
Qed.

(** The winter of 2024 has 30 + 31 + 31 + 29 rows. *)
Lemma C1_record_count_witness :
  ∃ cfg, SEASONS_CONFIG !! "winter" = Some cfg
    ∧ ∃ df w',
        generate_seasonal_data halves "winter" (months cfg) winter_ranges 2024
          fresh_world = (Ok df, w')
        ∧ Z.of_nat (length df) = 121.
Proof.
  eexists. split; [reflexivity|].
  destruct (C1_record_count halves "winter" _ winter_ranges 2024 fresh_world
              eq_refl) as (df & w' & Hrun & Hlen).
  exists df, w'. split; [exact Hrun|]. rewrite Hlen. by vm_compute.
Defined.

(** C2. For each of the four seasons the energy function returns the linear
    formula with that season's constants and optimal tilt (30 for winter and
    spring, 20 for summer and autumn).  For winter at irradiance 500,
    humidity 50, wind 3, temperature 10 and tilt 30 the result is 89.345, in
    exact arithmetic and in binary64 alike. *)
Theorem C2_energy_formula :
  (∀ A (N : Number A) (irr hum wind temp tilt : A) (w : World A),
     calc_kwh_generalized irr hum wind temp tilt "winter" w
     = (Ok (literal 18 2 * irr + literal (-3) 2 * hum + literal 15 3 * wind
            + literal 8 2 * temp
            + literal (-2) 2 * nabs (tilt - of_int 30))%num, w)
     ∧ calc_kwh_generalized irr hum wind temp tilt "spring" w
       = (Ok (literal 20 2 * irr + literal (-25) 3 * hum + literal 2 2 * wind
              + literal 6 2 * temp
              + literal (-15) 3 * nabs (tilt - of_int 30))%num, w)
     ∧ calc_kwh_generalized irr hum wind temp tilt "summer" w
       = (Ok (literal 22 2 * irr + literal (-35) 3 * hum + literal 25 3 * wind
              + literal 4 2 * temp
              + literal (-1) 2 * nabs (tilt - of_int 20))%num, w)
     ∧ calc_kwh_generalized irr hum wind temp tilt "autumn" w
       = (Ok (literal 19 2 * irr + literal (-28) 3 * hum + literal 18 3 * wind
              + literal 7 2 * temp
              + literal (-18) 3 * nabs (tilt - of_int 20))%num, w))
  ∧ (∀ w : World Q,
       ∃ v : Q,
         calc_kwh_generalized (of_int 500) (of_int 50) (of_int 3) (of_int 10)
           (of_int 30) "winter" w = (Ok v, w)
         ∧ (v == 89345 # 1000)%Q)
  ∧ (∀ w : World float,
       calc_kwh_generalized (of_int 500) (of_int 50) (of_int 3) (of_int 10)
         (of_int 30) "winter" w = (Ok (literal 89345 3), w)).
Proof.
  split; [|split].
  - intros. repeat split; by erewrite calc_kwh_generalized_run.
  - intros w. eexists. split; [by erewrite calc_kwh_generalized_run|].
    by vm_compute.
  - intros w. erewrite calc_kwh_generalized_run; [|reflexivity].
    by vm_compute.
Qed.




(** The same run in binary64: the draw [300 + 400 * (1 - 2^-20)] is exact
    and is stored as the double 700.0. *)
Example stored_irradiance_reaches_max_binary64 :
  ∃ df w' r,
    generate_seasonal_data near_one_binary64 "winter" winter_months_list
      winter_ranges 2024 fresh_world = (Ok df, w')
    ∧ r ∈ df
    ∧ irradiance r = of_int 700
    ∧ PrimFloat.ltb (irradiance r) (of_int 700) = false.
Proof.
  eexists _, _, _. split.
  { eapply (generate_seasonal_data_run near_one_binary64 "winter");
      [reflexivity | by repeat constructor]. }
  split.
  { eapply list_elem_of_lookup_2.
    by apply (season_records_lookup _ _ _ _ _ _ _ 0 "November" 11 1). }
  split; by vm_compute.
Qed.

(** C5. The month lists of winter, spring, summer and autumn partition the
    twelve month names: every month name is in the list of some season, only
    month names are, no month is in the lists of two seasons, and no list
    repeats a month. *)
Theorem C5_months_partition :
  dom SEASONS_CONFIG = ({["winter"; "spring"; "summer"; "autumn"]} : gset string)
  ∧ size MONTH_NAME_TO_NUM = 12%nat
  ∧ (∀ month,
       is_Some (MONTH_NAME_TO_NUM !! month)
       ↔ ∃ season cfg, SEASONS_CONFIG !! season = Some cfg ∧ month ∈ months cfg)
  ∧ (∀ season1 season2 cfg1 cfg2 month,
       SEASONS_CONFIG !! season1 = Some cfg1 →
       SEASONS_CONFIG !! season2 = Some cfg2 →
       month ∈ months cfg1 → month ∈ months cfg2 → season1 = season2)
  ∧ (∀ season cfg, SEASONS_CONFIG !! season = Some cfg → NoDup (months cfg)).
Proof.
  split; [by apply (bool_decide_unpack _); vm_compute|].
  split; [by vm_compute|]. split; [|split].
  - intros month. split.
    + intros [num Hm]. apply elem_of_list_to_map_2 in Hm.
      repeat (apply elem_of_cons in Hm as [[= -> ->]|Hm]);
        try (by apply elem_of_nil in Hm).
      1,2,11,12: exists "winter"; eexists; split; [reflexivity|];
        apply (bool_decide_unpack _); vm_compute; exact I.
      1,2,3: exists "spring"; eexists; split; [reflexivity|];
        apply (bool_decide_unpack _); vm_compute; exact I.
      1,2,3: exists "summer"; eexists; split; [reflexivity|];
        apply (bool_decide_unpack _); vm_compute; exact I.
      1,2: exists "autumn"; eexists; split; [reflexivity|];
        apply (bool_decide_unpack _); vm_compute; exact I.
    + intros (season & cfg & Hs%SEASONS_CONFIG_inv & Hm).
      repeat (apply elem_of_cons in Hs as [[= -> ->]|Hs]);
        try (by apply elem_of_nil in Hs); simpl in Hm;
        repeat (apply elem_of_cons in Hm as [->|Hm]);
        try (by apply elem_of_nil in Hm); by eexists.
  - intros s1 s2 cfg1 cfg2 month Hs1%SEASONS_CONFIG_inv Hs2%SEASONS_CONFIG_inv.
    repeat (apply elem_of_cons in Hs1 as [[= -> ->]|Hs1]);
      try (by apply elem_of_nil in Hs1);
      repeat (apply elem_of_cons in Hs2 as [[= -> ->]|Hs2]);
      try (by apply elem_of_nil in Hs2); try done; simpl; intros Hm1 Hm2;
      repeat (apply elem_of_cons in Hm1 as [->|Hm1]);
      try (by apply elem_of_nil in Hm1);
      exfalso; revert Hm2; apply (bool_decide_eq_false_1 _); reflexivity.
  - intros season cfg Hs%SEASONS_CONFIG_inv.
    repeat (apply elem_of_cons in Hs as [[= -> ->]|Hs]);
      try (by apply elem_of_nil in Hs);
      apply (bool_decide_unpack _); vm_compute; exact I.
Qed.

(** C6. Winter of 2024 has 29 February rows, one of them for day 29; winter
    of 2023 has 28 February rows and none for day 29. *)
Theorem C6_leap_february {A} `{Number A} (random_sample : nat → A) fr w :
  ∃ cfg, SEASONS_CONFIG !! "winter" = Some cfg ∧
    (∃ df w',
       generate_seasonal_data random_sample "winter" (months cfg) fr 2024 w
       = (Ok df, w')
       ∧ length (filter (λ r, month r = "February") df) = 29%nat
       ∧ ∃ r, r ∈ df ∧ month r = "February" ∧ day r = 29)
    ∧ (∃ df w',
       generate_seasonal_data random_sample "winter" (months cfg) fr 2023 w
       = (Ok df, w')
       ∧ length (filter (λ r, month r = "February") df) = 28%nat
       ∧ ∀ r, r ∈ df → ¬ (month r = "February" ∧ day r = 29)).
Proof.
  eexists. split; [reflexivity|].
  destruct (SEASONS_CONFIG_valid (A:=A) "winter" _ eq_refl) as [[c Hc] Hmonths].
  simpl months in *.
  split; eexists _, _; (split; [by apply generate_seasonal_data_run|]).
  - split; [by rewrite season_records_filter_month|].
    eexists. split.
    + eapply list_elem_of_lookup_2.
      apply (season_records_lookup _ _ _ _ _ _ _ 120 "February" 2 29).
      reflexivity.
    + done.
  - split; [by rewrite season_records_filter_month|].
    intros r Hr [Hmonth Hday].
    apply (list_elem_of_fmap_2 (λ r, (month r, day r))) in Hr.
    rewrite season_records_month_day, Hmonth, Hday in Hr.
    revert Hr. apply (bool_decide_eq_false_1 _). reflexivity.
Qed.

(** C7. The energy function neither reads nor writes the state: its result
    is the same in any two worlds, and the world it leaves is the world it
    was given. *)
Theorem C7_energy_pure {A} `{Number A} (irr hum wind temp tilt : A)
    (season : string) (w1 w2 : World A) :
  (calc_kwh_generalized irr hum wind temp tilt season w1).1
  = (calc_kwh_generalized irr hum wind temp tilt season w2).1
  ∧ (calc_kwh_generalized irr hum wind temp tilt season w1).2 = w1.
Proof.
  unfold calc_kwh_generalized, bind, getitem.
  by destruct (coefficients !! season).
Qed.

(** C8. The display block shows the prompt, and nothing else, exactly when
    the session state has no ['solar_data']; with ['solar_data'] stored it
    never shows the prompt.  A whole run of the script without a click on
    the button and without stored data ends with the prompt and renders no
    statistic or chart. *)
Theorem C8_display_guard {A} `{Number A} (random_sample : nat → A) :
  (∀ selected_season selected_year (w : World A),
     session_state w !! "solar_data" = None
     ↔ display selected_season selected_year w
       = (Ok (), render [Info prompt] w))
  ∧ (∀ selected_season selected_year (w : World A) v r w',
       session_state w !! "solar_data" = Some v →
       display selected_season selected_year w = (r, w') →
       ∃ es, w' = render es w ∧ Info prompt ∉ es)
  ∧ (∀ inp (w : World A),
       generate_clicked inp = false →
       session_state w !! "solar_data" = None →
       is_Some (SEASONS_CONFIG !! selected_season inp) →
       ∃ w' es,
         script random_sample inp w = (Ok (), w')
         ∧ page w' = page w ++ es ++ [Info prompt]
         ∧ Forall (λ e, is_statistic e = false) es
         ∧ session_state w' = session_state w).
Proof.
  split; [|split].
  - intros s y w. split; [apply display_None|].
    destruct (session_state w !! "solar_data") as [v|] eqn:Hs; [|done].
    intros Hrun.
    destruct (data_display_page s y v w (Ok ()) (render [Info prompt] w))
      as (es & Hes & Hnot); [by rewrite <- (display_Some s y v w Hs)|].
    apply (f_equal page) in Hes. simpl in Hes.
    apply (inj (app (page w))) in Hes. subst es.
    exfalso. apply Hnot. by left.
  - intros s y w v r w' Hs. rewrite (display_Some s y v w Hs).
    apply data_display_page.
  - intros inp w Hclick Hs [cfg Hcfg].
    unfold script. rewrite Hclick. rewrite bind_emit.
    erewrite bind_Ok; [|reflexivity].
    destruct (use_custom_params inp).
    + erewrite bind_Ok; [|erewrite bind_Ok; [|reflexivity];
                          erewrite bind_Ok; [|by apply getitem_Some];
                          reflexivity].
      erewrite bind_Ok; [|reflexivity].
      erewrite bind_Ok; [|apply getitem_Some, lookup_insert_eq].
      rewrite bind_emit. erewrite bind_Ok; [|reflexivity].
      rewrite display_None by done.
      eexists _, [Title; SeasonCard _ _ _ _]. split; [reflexivity|].
      split; [simpl; by rewrite <- !(assoc_L (++))|].
      split; [by repeat constructor|done].
    + erewrite bind_Ok; [|reflexivity].
      erewrite bind_Ok; [|reflexivity].
      erewrite bind_Ok; [|by apply getitem_Some].
      rewrite bind_emit. erewrite bind_Ok; [|reflexivity].
      rewrite display_None by done.
      eexists _, [Title; SeasonCard _ _ _ _]. split; [reflexivity|].
      split; [simpl; by rewrite <- !(assoc_L (++))|].
      split; [by repeat constructor|done].
Qed.

(** C9. The stored energy of a row is the rounded energy of the unrounded
    draws whose roundings are the row's stored parameters.  It need not be
    the rounded energy of the stored parameters: with the winter draws
    500.0030517578125, 50, 2.298828125, 8.75 and 25 the row stores
    irradiance 500.00, wind speed 2.30 and energy 89.14, while the stored
    parameters give 89.1345, which rounds to 89.13, in exact arithmetic and
    in binary64 alike. *)
Theorem C9_kwh_from_unrounded_draws :
  (∀ A (N : Number A) (random_sample : nat → A) season months fr year w df w' r,
     generate_seasonal_data random_sample season months fr year w = (Ok df, w') →
     r ∈ df →
     ∃ c p,
       coefficients !! season = Some c
       ∧ irradiance r = round2 (draw random_sample (irradiance_range fr) p)
       ∧ humidity r = round2 (draw random_sample (humidity_range fr) (1 + p))
       ∧ wind_speed r = round2 (draw random_sample (wind_speed_range fr) (2 + p))
       ∧ ambient_temperature r
         = round2 (draw random_sample (ambient_temperature_range fr) (3 + p))
       ∧ tilt_angle r = round2 (draw random_sample (tilt_angle_range fr) (4 + p))
       ∧ kwh r
         = round2 (energy c season
                     (draw random_sample (irradiance_range fr) p)
                     (draw random_sample (humidity_range fr) (1 + p))
                     (draw random_sample (wind_speed_range fr) (2 + p))
                     (draw random_sample (ambient_temperature_range fr) (3 + p))
                     (draw random_sample (tilt_angle_range fr) (4 + p))))
  ∧ (∃ df w' r c,
       generate_seasonal_data off_grid "winter" winter_months_list winter_ranges
         2024 fresh_world = (Ok df, w')
       ∧ r ∈ df
       ∧ coefficients !! "winter" = Some c
       ∧ (irradiance r == 500)%Q
       ∧ (kwh r == 8914 # 100)%Q
       ∧ (energy c "winter" (irradiance r) (humidity r) (wind_speed r)
            (ambient_temperature r) (tilt_angle r) == 891345 # 10000)%Q
       ∧ (round2 (energy c "winter" (irradiance r) (humidity r) (wind_speed r)
                    (ambient_temperature r) (tilt_angle r)) == 8913 # 100)%Q)
  ∧ (∃ df w' r c,
       generate_seasonal_data off_grid_binary64 "winter" winter_months_list
         winter_ranges 2024 fresh_world = (Ok df, w')
       ∧ r ∈ df
       ∧ coefficients !! "winter" = Some c
       ∧ irradiance r = of_int 500
       ∧ kwh r = literal 8914 2
       ∧ round2 (energy c "winter" (irradiance r) (humidity r) (wind_speed r)
                   (ambient_temperature r) (tilt_angle r)) = literal 8913 2
       ∧ PrimFloat.eqb (literal 8914 2) (literal 8913 2) = false).
Proof.
  split; [|split].
  - intros A N random_sample season months fr year w df w' r Hrun Hr.
    apply generate_seasonal_data_rows in Hrun.
    rewrite Forall_forall in Hrun.
    destruct (Hrun r Hr) as (c & p & m & num & d & Hc & _ & _ & ->).
    by exists c, p.
  - eexists _, _, _, _. split.
    { eapply (generate_seasonal_data_run off_grid "winter");
        [reflexivity | by repeat constructor]. }
    split.
    { eapply list_elem_of_lookup_2.
      by apply (season_records_lookup _ _ _ _ _ _ _ 0 "November" 11 1). }
    split; [reflexivity|]. repeat split; by vm_compute.
  - eexists _, _, _, _. split.
    { eapply (generate_seasonal_data_run off_grid_binary64 "winter");
        [reflexivity | by repeat constructor]. }
    split.
    { eapply list_elem_of_lookup_2.
      by apply (season_records_lookup _ _ _ _ _ _ _ 0 "November" 11 1). }
    split; [reflexivity|]. repeat split; by vm_compute.
Qed.

(** C10. Every row carries the selected year in its date, rows come in the
    order of the season's month list, and for winter (November, December,
    January, February) a January row follows the November rows although its
    date string is smaller. *)
Theorem C10_single_year_month_order {A} `{Number A} (random_sample : nat → A)
    season cfg fr year w :
  SEASONS_CONFIG !! season = Some cfg →
  ∃ df w',
    generate_seasonal_data random_sample season (months cfg) fr year w
    = (Ok df, w')
    ∧ (∀ r, r ∈ df →
         ∃ num, MONTH_NAME_TO_NUM !! month r = Some num
                ∧ date r = str year +:+ "-" +:+ format_02d num
                           +:+ "-" +:+ format_02d (day r))
    ∧ month <$> df
      = months cfg ≫= (λ month,
          replicate (Z.to_nat (days_in_month month year)) month)
    ∧ (season = "winter" →
         months cfg = ["November"; "December"; "January"; "February"]
         ∧ ∃ i j ri rj,
             (i < j)%nat ∧ df !! i = Some ri ∧ df !! j = Some rj
             ∧ month ri = "November" ∧ month rj = "January"
             ∧ String.ltb (date rj) (date ri) = true).
Proof.
  intros Hs.
  destruct (SEASONS_CONFIG_valid (A:=A) season cfg Hs) as [[c Hc] Hmonths].
  pose proof (generate_seasonal_data_run random_sample season c (months cfg)
                fr year w Hc Hmonths) as Hrun.
  eexists _, _. split; [exact Hrun|]. split; [|split].
  - intros r Hr.
    pose proof (generate_seasonal_data_rows _ _ _ _ _ _ _ _ Hrun) as Hrows.
    rewrite Forall_forall in Hrows.
    destruct (Hrows r Hr) as (c' & p & m & num & d & _ & _ & Hm & ->).
    by exists num.
  - by rewrite season_records_month, season_calendar_months.
  - intros ->.
    pose proof (winter_months cfg Hs) as Hcfg.
    split; [done|]. rewrite Hcfg.
    eexists 0%nat, 61%nat, _, _. split; [lia|].
    split.
    { apply (season_records_lookup _ _ _ _ _ _ _ 0 "November" 11 1).
      vm_compute. reflexivity. }
    split.
    { apply (season_records_lookup _ _ _ _ _ _ _ 61 "January" 1 1).
      vm_compute. reflexivity. }
    split; [reflexivity|]. split; [reflexivity|].
    cbn [date record_at]. rewrite ltb_app_prefix. vm_compute. reflexivity.
Qed.

(** The winter of 2024. *)
Lemma C10_single_year_month_order_witness :
  ∃ cfg, SEASONS_CONFIG !! "winter" = Some cfg
    ∧ ∃ df w',
        generate_seasonal_data halves "winter" (months cfg) winter_ranges 2024
          fresh_world = (Ok df, w')
        ∧ (∀ r, r ∈ df →
             ∃ num, MONTH_NAME_TO_NUM !! month r = Some num
                    ∧ date r = "2024" +:+ "-" +:+ format_02d num
                               +:+ "-" +:+ format_02d (day r))
        ∧ month <$> df
          = replicate 30 "November" ++ replicate 31 "December"
            ++ replicate 31 "January" ++ replicate 29 "February"
        ∧ ∃ i j ri rj,
            (i < j)%nat ∧ df !! i = Some ri ∧ df !! j = Some rj
            ∧ month ri = "November" ∧ month rj = "January"
            ∧ String.ltb (date rj) (date ri) = true.
Proof.
  eexists. split; [reflexivity|].
  destruct (C10_single_year_month_order halves "winter" _ winter_ranges 2024
              fresh_world eq_refl) as (df & w' & Hrun & Hdate & Hmonth & Hwinter).
  exists df, w'. split; [exact Hrun|]. split; [exact Hdate|].
  split; [rewrite Hmonth; by vm_compute|].
  by destruct (Hwinter eq_refl) as [_ Horder].
Defined.

(** ** Further properties: the two helper functions *)

(** [get_days_in_month] returns the Gregorian length of the month for the
    twelve month names and raises [KeyError] with the name for any other
    string; it never raises [IllegalMonthError] and never touches the
    state. *)
Theorem get_days_in_month_spec {A} `{Number A} month year (w : World A) :
  get_days_in_month month year w
  = (match MONTH_NAME_TO_NUM !! month with
     | Some _ => Ok (days_in_month month year)
     | None => Raise (KeyError month)
     end, w).
Proof.
  unfold get_days_in_month, bind, getitem.
  destruct (MONTH_NAME_TO_NUM !! month) as [num|] eqn:Hm; [|done].
  unfold ret. by rewrite (monthrange_days_in_month month num year Hm).
Qed.

Lemma coefficients_lookup {A} `{Number A} season :
  (season ∈ season_names ∧ is_Some (coefficients (A:=A) !! season))
  ∨ ((season ∉ season_names) ∧ coefficients (A:=A) !! season = None).
Proof.
  destruct (decide (season ∈ season_names)) as [Hin|Hout].
  - left. split; [done|]. unfold season_names in Hin.
    repeat (apply elem_of_cons in Hin as [->|Hin]; [by eexists|]).
    by apply elem_of_nil in Hin.
  - right. split; [done|]. by apply not_elem_of_list_to_map_1.
Qed.

(** [calc_kwh_generalized] returns exactly for the four season names; for
    any other string it raises [KeyError] with that string.  Either way the
    state is left as it was. *)
Theorem calc_kwh_generalized_seasons {A} `{Number A}
    (irr hum wind temp tilt : A) season (w : World A) :
  (season ∈ season_names
   ∧ ∃ v, calc_kwh_generalized irr hum wind temp tilt season w = (Ok v, w))
  ∨ ((season ∉ season_names)
     ∧ calc_kwh_generalized irr hum wind temp tilt season w
       = (Raise (KeyError season), w)).
Proof.
  destruct (coefficients_lookup (A:=A) season) as [[Hin [c Hc]]|[Hout Hc]].
  - left. split; [done|]. eexists. by apply calc_kwh_generalized_run.
  - right. split; [done|].
    unfold calc_kwh_generalized, bind, getitem. by rewrite Hc.
Qed.

(** In exact arithmetic the coefficients have these signs in every season:
    irradiance, wind and temperature count positively, humidity and the
    distance from the optimal tilt negatively. *)
Lemma coefficients_signs season (c : Coefficients Q) :
  coefficients !! season = Some c →
  (0 < c_irr c ∧ c_hum c < 0 ∧ 0 < c_wind c ∧ 0 < c_temp c ∧ c_tilt c < 0)%Q.
Proof.
  intros Hc%elem_of_list_to_map_2.
  repeat (apply elem_of_cons in Hc as [[= -> ->]|Hc]; [by vm_compute|]).
  by apply elem_of_nil in Hc.
Qed.

Lemma calc_kwh_generalized_result season (irr hum wind temp tilt : Q)
    (w : World Q) :
  (calc_kwh_generalized irr hum wind temp tilt season w).1
  = match coefficients !! season with
    | Some c => Ok (energy c season irr hum wind temp tilt)
    | None => Raise (KeyError season)
    end.
Proof.
  unfold calc_kwh_generalized, bind, getitem.
  by destruct (coefficients !! season).
Qed.

(** The energy depends on the tilt only through its distance from the
    optimal tilt: [d] degrees above and [d] degrees below give the same
    energy. *)
Theorem calc_kwh_generalized_tilt_symmetric season
    (irr hum wind temp d : Q) (w : World Q) :
  result_rel Qeq
    (calc_kwh_generalized irr hum wind temp (optimal_tilt season + d)%Q
       season w).1
    (calc_kwh_generalized irr hum wind temp (optimal_tilt season - d)%Q
       season w).1.
Proof.
  rewrite !calc_kwh_generalized_result.
  destruct (coefficients !! season) as [c|]; [|done].
  cbn [result_rel]. unfold energy. cbn [nadd nsub nmul nabs Q_Number].
  assert (optimal_tilt season + d - optimal_tilt season == d)%Q as E1 by ring.
  assert (optimal_tilt season - d - optimal_tilt season == - d)%Q as E2 by ring.
  rewrite E1, E2, Qabs_opp.
  reflexivity.
Qed.

(** No tilt gives more energy than the optimal tilt. *)
Theorem calc_kwh_generalized_optimal_tilt season
    (irr hum wind temp tilt : Q) (w : World Q) :
  result_rel Qle
    (calc_kwh_generalized irr hum wind temp tilt season w).1
    (calc_kwh_generalized irr hum wind temp (optimal_tilt season) season w).1.
Proof.
  rewrite !calc_kwh_generalized_result.
  destruct (coefficients !! season) as [c|] eqn:Hc; [|done].
  destruct (coefficients_signs season c Hc) as (_ & _ & _ & _ & Htilt).
  cbn [result_rel]. unfold energy. cbn [nadd nsub nmul nabs Q_Number].
  assert (optimal_tilt season - optimal_tilt season == 0)%Q as E by ring.
  rewrite E.
  pose proof (Qabs_nonneg (tilt - optimal_tilt season)%Q) as Habs.
  change (Qabs 0) with 0%Q.
  set (a := Qabs (tilt - optimal_tilt season)%Q) in *.
  set (ct := c_tilt c) in *. nra.
Qed.

(** More irradiance, wind or temperature never lowers the energy, and more
    humidity never raises it. *)
Theorem calc_kwh_generalized_monotone season
    (irr irr' hum hum' wind wind' temp temp' tilt : Q) (w : World Q) :
  (irr <= irr')%Q → (hum' <= hum)%Q → (wind <= wind')%Q → (temp <= temp')%Q →
  result_rel Qle
    (calc_kwh_generalized irr hum wind temp tilt season w).1
    (calc_kwh_generalized irr' hum' wind' temp' tilt season w).1.
Proof.
  intros Hi Hh Hw Ht. rewrite !calc_kwh_generalized_result.
  destruct (coefficients !! season) as [c|] eqn:Hc; [|done].
  destruct (coefficients_signs season c Hc) as (Hci & Hch & Hcw & Hct & _).
  cbn [result_rel]. unfold energy. cbn [nadd nsub nmul nabs Q_Number].
  set (a := Qabs (tilt - optimal_tilt season)%Q).
  set (ci := c_irr c) in *. set (ch := c_hum c) in *.
  set (cw := c_wind c) in *. set (ct := c_temp c) in *.
  nra.
Qed.

(** Winter, with every parameter moved in its favourable direction. *)
Lemma calc_kwh_generalized_monotone_witness :
  result_rel Qle
    (calc_kwh_generalized 500%Q 60%Q 3%Q 10%Q 25%Q "winter" fresh_world).1
    (calc_kwh_generalized 600%Q 50%Q 4%Q 12%Q 25%Q "winter" fresh_world).1.
Proof.
  apply (calc_kwh_generalized_monotone "winter" 500 600 60 50 3 4 10 12 25)%Q;
    by vm_compute.
Defined.

(** ** Further properties: the generator *)

Section GeneratorErrors.
Context {A : Type} `{Number A}.
Variable random_sample : nat → A.

Implicit Types (w : World A) (df data : DataFrame A) (r : DailyRecord A).

(** A loop over [xs ++ ys] is the loop over [xs] followed by the loop over
    [ys]; an exception in the first part skips the second. *)
Lemma for_app {X S} (body : S → X → M (A:=A) S) xs ys s w :
  for_ (xs ++ ys) body s w = bind (for_ xs body s) (for_ ys body) w.
Proof.
  revert s w. induction xs as [|x xs IH]; intros s w; [done|].
  simpl. unfold bind in *.
  destruct (body s x w) as [[s1|e] w1]; [apply IH | done].
Qed.

(** Every iteration of a loop that returns has returned. *)
Lemma for_Ok_all {X S} (body : S → X → M (A:=A) S) xs s w s' w' :
  for_ xs body s w = (Ok s', w') →
  ∀ x, x ∈ xs → ∃ s1 w1 s2 w2, body s1 x w1 = (Ok s2, w2).
Proof.
  revert s w. induction xs as [|x xs IH]; intros s w Hrun y Hy.
  - by apply elem_of_nil in Hy.
  - simpl in Hrun. apply bind_inv in Hrun as (s1 & w1 & Hb & Hrest).
    apply elem_of_cons in Hy as [->|Hy]; [by eauto 10|].
    by eapply IH.
Qed.

Lemma get_days_in_month_None month year w :
  MONTH_NAME_TO_NUM !! month = None →
  get_days_in_month month year w = (Raise (KeyError month), w).
Proof. intros Hm. unfold get_days_in_month, bind, getitem. by rewrite Hm. Qed.

(** With a season the coefficient table does not know, an iteration of the
    inner loop draws its five numbers and then raises. *)
Lemma day_body_unknown_season season fr year month data day w :
  coefficients (A:=A) !! season = None →
  day_body random_sample season fr year month data day w
  = (Raise (KeyError season), advance 5 w).
Proof.
  intros Hc. unfold day_body.
  do 5 (erewrite bind_Ok; [|apply np_random_uniform_run]).
  unfold bind at 1, calc_kwh_generalized, bind at 1, getitem.
  by rewrite Hc.
Qed.

(** What a returning run has established about its arguments: either there
    were no months, or the season and every month name were known; and what
    it has returned. *)
Lemma generate_seasonal_data_Ok_inv season months fr year w df w' :
  generate_seasonal_data random_sample season months fr year w = (Ok df, w') →
  (months = [] ∧ df = [] ∧ w' = w)
  ∨ (∃ c, coefficients !! season = Some c
          ∧ Forall (λ month, is_Some (MONTH_NAME_TO_NUM !! month)) months
          ∧ df = season_records random_sample season c fr year (rng_pos w)
                   (season_calendar months year)
          ∧ w' = advance (5 * length (season_calendar months year)) w).
Proof.
  intros Hrun. destruct months as [|m ms].
  { left. unfold generate_seasonal_data in Hrun. simpl in Hrun.
    unfold ret in Hrun. by simplify_eq. }
  right.
  assert (Forall (λ month, is_Some (MONTH_NAME_TO_NUM !! month)) (m :: ms))
    as Hmonths.
  { apply Forall_forall. intros x Hx.
    rewrite generate_seasonal_data_unfold in Hrun.
    destruct (for_Ok_all _ _ _ _ _ _ Hrun x Hx) as (s1 & w1 & s2 & w2 & Hb).
    apply bind_inv in Hb as (days & w3 & Hd & _).
    apply get_days_in_month_inv in Hd as (num & Hm & _). by exists num. }
  assert (∃ c, coefficients (A:=A) !! season = Some c) as [c Hc].
  { pose proof Hrun as Hrun'.
    rewrite generate_seasonal_data_unfold in Hrun'. simpl in Hrun'.
    apply bind_inv in Hrun' as (s1 & w1 & Hb & _).
    apply bind_inv in Hb as (days & w2 & Hd & Hinner).
    apply get_days_in_month_inv in Hd as (num & Hm & Hd & ->).
    destruct (monthrange_ndays_Ok year m num Hm) as (days' & Hd' & Hbound).
    rewrite Hd in Hd'. injection Hd' as <-.
    unfold range in Hinner. rewrite seqZ_cons in Hinner by lia.
    simpl in Hinner. apply bind_inv in Hinner as (s2 & w3 & Hday & _).
    apply day_body_inv in Hday as (c & n & Hc & _). by exists c. }
  exists c. split; [done|]. split; [done|].
  rewrite (generate_seasonal_data_run random_sample season c (m :: ms) fr year w
             Hc Hmonths) in Hrun.
  by simplify_eq.
Qed.

End GeneratorErrors.

(** The generator returns a table exactly when the month list is empty or
    the season is one of the four season names and every month is one of the
    twelve month names. *)
Theorem generate_seasonal_data_returns_iff {A} `{Number A}
    (random_sample : nat → A) season months fr year (w : World A) :
  (∃ df w',
     generate_seasonal_data random_sample season months fr year w = (Ok df, w'))
  ↔ months = []
    ∨ (season ∈ season_names
       ∧ Forall (λ month, is_Some (MONTH_NAME_TO_NUM !! month)) months).
Proof.
  split.
  - intros (df & w' & Hrun).
    apply generate_seasonal_data_Ok_inv in Hrun
      as [(-> & _)|(c & Hc & Hmonths & _)]; [by left|right].
    split; [|done].
    destruct (coefficients_lookup (A:=A) season) as [[Hin _]|[_ Hnone]];
      [done|congruence].
  - intros [->|[Hin Hmonths]].
    + by exists [], w.
    + destruct (coefficients_lookup (A:=A) season) as [[_ [c Hc]]|[Hout _]];
        [|done].
      eexists _, _. by apply generate_seasonal_data_run.
Qed.

(** A run for an unknown season whose first month is known raises
    [KeyError] with the season, after drawing the five numbers of the first
    day; no table is returned. *)
Theorem generate_seasonal_data_unknown_season {A} `{Number A}
    (random_sample : nat → A) season month rest fr year (w : World A) :
  season ∉ season_names →
  is_Some (MONTH_NAME_TO_NUM !! month) →
  generate_seasonal_data random_sample season (month :: rest) fr year w
  = (Raise (KeyError season), advance 5 w).
Proof.
  intros Hout [num Hm].
  destruct (coefficients_lookup (A:=A) season) as [[Hin _]|[_ Hc]]; [done|].
  destruct (monthrange_ndays_Ok year month num Hm) as (days & Hd & Hbound).
  rewrite generate_seasonal_data_unfold. simpl.
  erewrite bind_Raise; [done|].
  erewrite bind_Ok; [|by eapply get_days_in_month_run].
  unfold range. rewrite seqZ_cons by lia. simpl.
  erewrite bind_Raise; [done|]. by apply day_body_unknown_season.
Qed.

(** Season "Winter" with a capital letter. *)
Lemma generate_seasonal_data_unknown_season_witness :
  generate_seasonal_data halves "Winter" ["January"] winter_ranges 2024
    fresh_world
  = (Raise (KeyError "Winter"), advance 5 fresh_world).
Proof.
  apply (generate_seasonal_data_unknown_season halves "Winter" "January" []
           winter_ranges 2024 fresh_world).
  - apply (bool_decide_eq_false_1 _). by vm_compute.
  - by eexists.
Defined.

(** A run for a known season raises [KeyError] with the first unknown month
    name.  The rows of the months before it are lost, and the five random
    numbers of each of their days have been drawn. *)
Theorem generate_seasonal_data_unknown_month {A} `{Number A}
    (random_sample : nat → A) season known month rest fr year (w : World A) :
  season ∈ season_names →
  Forall (λ month, is_Some (MONTH_NAME_TO_NUM !! month)) known →
  MONTH_NAME_TO_NUM !! month = None →
  generate_seasonal_data random_sample season (known ++ month :: rest) fr year w
  = (Raise (KeyError month),
     advance (5 * length (season_calendar known year)) w).
Proof.
  intros Hin Hknown Hm.
  destruct (coefficients_lookup (A:=A) season) as [[_ [c Hc]]|[Hout _]]; [|done].
  rewrite generate_seasonal_data_unfold, for_app.
  erewrite bind_Ok.
  2:{ rewrite <- generate_seasonal_data_unfold.
      by apply generate_seasonal_data_run. }
  simpl. erewrite bind_Raise; [done|].
  erewrite bind_Raise; [done|]. by apply get_days_in_month_None.
Qed.

(** January, then "Smarch". *)
Lemma generate_seasonal_data_unknown_month_witness :
  generate_seasonal_data halves "winter" ["January"; "Smarch"; "February"]
    winter_ranges 2024 fresh_world
  = (Raise (KeyError "Smarch"), advance 155 fresh_world).
Proof.
  apply (generate_seasonal_data_unknown_month halves "winter" ["January"]
           "Smarch" ["February"] winter_ranges 2024 fresh_world).
  - apply (bool_decide_unpack _). by vm_compute.
  - repeat constructor. by eexists.
  - reflexivity.
Defined.

Lemma season_records_columns {A} `{Number A} (random_sample : nat → A)
    key c fr year p days :
  (λ r, (season r, month r, day r))
    <$> season_records random_sample key c fr year p days
  = (λ x, (key, x.1.1, x.2)) <$> days.
Proof.
  revert p. induction days as [|[[m n] d] days IH]; intros p; [done|].
  rewrite season_records_cons, !fmap_cons, IH. done.
Qed.

Lemma season_calendar_days (key : string) months year :
  Forall (λ month, is_Some (MONTH_NAME_TO_NUM !! month)) months →
  (λ x : string * Z * Z, (key, x.1.1, x.2)) <$> season_calendar months year
  = months ≫= (λ month,
      (λ day, (key, month, day)) <$> seqZ 1 (days_in_month month year)).
Proof.
  unfold season_calendar.
  induction 1 as [|month months [num Hm] _ IH]; [done|].
  rewrite !bind_cons, fmap_app, IH. f_equal.
  rewrite (month_calendar_eq month num year Hm), <- list_fmap_compose.
  unfold range. by replace (days_in_month month year + 1 - 1)
    with (days_in_month month year) by lia.
Qed.

(** A returning run has drawn exactly five random numbers per row and has
    changed nothing else in the state. *)
Theorem generate_seasonal_data_state {A} `{Number A} (random_sample : nat → A)
    season months fr year (w : World A) df w' :
  generate_seasonal_data random_sample season months fr year w = (Ok df, w') →
  w' = advance (5 * length df) w.
Proof.
  intros [(_ & -> & ->)|(c & _ & _ & -> & ->)]%generate_seasonal_data_Ok_inv.
  - by rewrite advance_0.
  - by rewrite season_records_length.
Qed.

(** February 2023: 28 rows, 140 numbers. *)
Lemma generate_seasonal_data_state_witness :
  ∃ df w',
    generate_seasonal_data halves "winter" ["February"] winter_ranges 2023
      fresh_world = (Ok df, w')
    ∧ length df = 28%nat
    ∧ rng_pos w' = 140%nat
    ∧ seasons_config w' = SEASONS_CONFIG.
Proof.
  destruct (generate_seasonal_data halves "winter" ["February"] winter_ranges
              2023 fresh_world) as [[df|e] w'] eqn:Hrun;
    [|by vm_compute in Hrun].
  exists df, w'. split; [reflexivity|].
  pose proof (generate_seasonal_data_state halves "winter" ["February"]
                winter_ranges 2023 fresh_world df w' Hrun) as Hw.
  assert (length df = 28%nat) as Hlen.
  { vm_compute in Hrun. by injection Hrun as <- _. }
  split; [exact Hlen|]. rewrite Hw, Hlen. by split.
Defined.

(** The fields of row [k] of [season_records], by the positions of the
    random numbers they come from. *)
Lemma season_records_row {A} `{Number A} (random_sample : nat → A)
    key c fr year p days k r :
  season_records random_sample key c fr year p days !! k = Some r →
  irradiance r
  = round2 (draw random_sample (irradiance_range fr) (5 * k + p))
  ∧ humidity r
    = round2 (draw random_sample (humidity_range fr) (5 * k + p + 1))
  ∧ wind_speed r
    = round2 (draw random_sample (wind_speed_range fr) (5 * k + p + 2))
  ∧ ambient_temperature r
    = round2 (draw random_sample (ambient_temperature_range fr) (5 * k + p + 3))
  ∧ tilt_angle r
    = round2 (draw random_sample (tilt_angle_range fr) (5 * k + p + 4))
  ∧ kwh r
    = round2 (energy c key
        (draw random_sample (irradiance_range fr) (5 * k + p))
        (draw random_sample (humidity_range fr) (5 * k + p + 1))
        (draw random_sample (wind_speed_range fr) (5 * k + p + 2))
        (draw random_sample (ambient_temperature_range fr) (5 * k + p + 3))
        (draw random_sample (tilt_angle_range fr) (5 * k + p + 4))).
Proof.
  intros Hk. unfold season_records in Hk. rewrite list_lookup_imap in Hk.
  destruct (days !! k) as [[[m n] d]|]; [|done].
  injection Hk as <-. unfold record_at.
  cbn [irradiance humidity wind_speed ambient_temperature tilt_angle kwh].
  replace (5 * k + p + 1)%nat with (1 + (5 * k + p))%nat by lia.
  replace (5 * k + p + 2)%nat with (2 + (5 * k + p))%nat by lia.
  replace (5 * k + p + 3)%nat with (3 + (5 * k + p))%nat by lia.
  replace (5 * k + p + 4)%nat with (4 + (5 * k + p))%nat by lia.
  done.
Qed.

(** In a returned table, row [k] (counting from 0) stores the roundings of
    the random draws number [5k] to [5k + 4] of the run, in the order
    irradiance, humidity, wind speed, temperature, tilt, and the rounded
    energy of those five draws. *)
Theorem generate_seasonal_data_row {A} `{Number A} (random_sample : nat → A)
    season months fr year (w : World A) df w' k r :
  generate_seasonal_data random_sample season months fr year w = (Ok df, w') →
  df !! k = Some r →
  ∃ c,
    coefficients !! season = Some c
    ∧ irradiance r
      = round2 (draw random_sample (irradiance_range fr) (5 * k + rng_pos w))
    ∧ humidity r
      = round2 (draw random_sample (humidity_range fr) (5 * k + rng_pos w + 1))
    ∧ wind_speed r
      = round2 (draw random_sample (wind_speed_range fr) (5 * k + rng_pos w + 2))
    ∧ ambient_temperature r
      = round2 (draw random_sample (ambient_temperature_range fr)
                  (5 * k + rng_pos w + 3))
    ∧ tilt_angle r
      = round2 (draw random_sample (tilt_angle_range fr) (5 * k + rng_pos w + 4))
    ∧ kwh r
      = round2 (energy c season
          (draw random_sample (irradiance_range fr) (5 * k + rng_pos w))
          (draw random_sample (humidity_range fr) (5 * k + rng_pos w + 1))
          (draw random_sample (wind_speed_range fr) (5 * k + rng_pos w + 2))
          (draw random_sample (ambient_temperature_range fr)
             (5 * k + rng_pos w + 3))
          (draw random_sample (tilt_angle_range fr) (5 * k + rng_pos w + 4))).
Proof.
  intros [(_ & -> & _)|(c & Hc & _ & -> & _)]%generate_seasonal_data_Ok_inv Hk;
    [done|].
  exists c. split; [done|]. by apply season_records_row in Hk.
Qed.

(** Row 3 of a February run: the draws 15 to 19. *)
Lemma generate_seasonal_data_row_witness :
  ∃ df w' r,
    generate_seasonal_data halves "winter" ["February"] winter_ranges 2023
      fresh_world = (Ok df, w')
    ∧ df !! 3%nat = Some r
    ∧ irradiance r = round2 (draw halves (irradiance_range winter_ranges) 15)
    ∧ tilt_angle r = round2 (draw halves (tilt_angle_range winter_ranges) 19).
Proof.
  destruct (generate_seasonal_data halves "winter" ["February"] winter_ranges
              2023 fresh_world) as [[df|e] w'] eqn:Hrun;
    [|by vm_compute in Hrun].
  destruct (df !! 3%nat) as [r|] eqn:Hr.
  2:{ vm_compute in Hrun. injection Hrun as <- _. by vm_compute in Hr. }
  exists df, w', r. split; [reflexivity|]. split; [exact Hr|].
  destruct (generate_seasonal_data_row halves "winter" ["February"]
              winter_ranges 2023 fresh_world df w' 3 r Hrun Hr)
    as (c & _ & Hirr & _ & _ & _ & Htilt & _).
  by split.
Defined.

(** A run reads only the next [5 * len(df)] random numbers: a generator that
    agrees with this one on those numbers yields the same table and the same
    final state. *)
Theorem generate_seasonal_data_frame {A} `{Number A}
    (random_sample random_sample' : nat → A)
    season months fr year (w : World A) df w' :
  generate_seasonal_data random_sample season months fr year w = (Ok df, w') →
  (∀ k, (rng_pos w ≤ k < rng_pos w + 5 * length df)%nat →
        random_sample k = random_sample' k) →
  generate_seasonal_data random_sample' season months fr year w = (Ok df, w').
Proof.
  intros [(-> & -> & ->)|(c & Hc & Hmonths & -> & ->)]%generate_seasonal_data_Ok_inv
    Hagree; [done|].
  rewrite (generate_seasonal_data_run random_sample' season c months fr year w
             Hc Hmonths).
  f_equal. f_equal. rewrite season_records_length in Hagree.
  unfold season_records. apply imap_ext. intros k [[m n] d] Hk.
  apply lookup_lt_Some in Hk.
  unfold record_at, draw. simpl.
  rewrite <- !Hagree by lia. done.
Qed.

(** Two generators that differ only after the 140th number. *)
Lemma generate_seasonal_data_frame_witness :
  ∃ df w',
    generate_seasonal_data halves "winter" ["February"] winter_ranges 2023
      fresh_world = (Ok df, w')
    ∧ generate_seasonal_data
        (λ k, if (k <? 140)%nat then halves k else 0%Q)
        "winter" ["February"] winter_ranges 2023 fresh_world = (Ok df, w').
Proof.
  destruct (generate_seasonal_data halves "winter" ["February"] winter_ranges
              2023 fresh_world) as [[df|e] w'] eqn:Hrun;
    [|by vm_compute in Hrun].
  exists df, w'. split; [reflexivity|].
  apply (generate_seasonal_data_frame halves _ _ _ _ _ _ _ _ Hrun).
  assert (length df = 28%nat) as ->.
  { vm_compute in Hrun. by injection Hrun as <- _. }
  intros k [_ Hk]. change (rng_pos fresh_world) with 0%nat in Hk.
  by destruct (Nat.ltb_spec k 140); [|lia].
Defined.

(** The season, month and day columns of a returned table list the days of
    the months in order: for each month of the list, in list order, the days
    1 to the Gregorian length of that month in that year, every row carrying
    the season argument [key]. *)
Theorem generate_seasonal_data_days {A} `{Number A} (random_sample : nat → A)
    key months fr year (w : World A) df w' :
  generate_seasonal_data random_sample key months fr year w = (Ok df, w') →
  (λ r, (season r, month r, day r)) <$> df
  = months ≫= (λ month,
      (λ day, (key, month, day)) <$> seqZ 1 (days_in_month month year)).
Proof.
  intros [(-> & -> & _)|(c & _ & Hmonths & -> & _)]%generate_seasonal_data_Ok_inv;
    [done|].
  by rewrite season_records_columns, season_calendar_days.
Qed.

(** February 2023. *)
Lemma generate_seasonal_data_days_witness :
  ∃ df w',
    generate_seasonal_data halves "winter" ["February"] winter_ranges 2023
      fresh_world = (Ok df, w')
    ∧ (λ r, (season r, month r, day r)) <$> df
      = (λ day, ("winter", "February", day)) <$> seqZ 1 28.
Proof.
  destruct (generate_seasonal_data halves "winter" ["February"] winter_ranges
              2023 fresh_world) as [[df|e] w'] eqn:Hrun;
    [|by vm_compute in Hrun].
  exists df, w'. split; [reflexivity|].
  rewrite (generate_seasonal_data_days halves "winter" ["February"]
             winter_ranges 2023 fresh_world df w' Hrun).
  by vm_compute.
Defined.

(** *** Dates are keys *)

Lemma NoDup_fmap_inj_on {X Y} (f : X → Y) (l : list X) x y :
  NoDup (f <$> l) → x ∈ l → y ∈ l → f x = f y → x = y.
Proof.
  induction l as [|z l IH]; intros Hnd Hx Hy Hf.
  - by apply elem_of_nil in Hx.
  - rewrite fmap_cons in Hnd. apply NoDup_cons in Hnd as [Hz Hnd].
    apply elem_of_cons in Hx as [->|Hx]; apply elem_of_cons in Hy as [->|Hy].
    + done.
    + destruct Hz. rewrite Hf. by apply list_elem_of_fmap_2.
    + destruct Hz. rewrite <- Hf. by apply list_elem_of_fmap_2.
    + by apply IH.
Qed.

(** [{n:02d}] has two characters and loses nothing for 1 to 31. *)
Lemma format_02d_length n : 1 ≤ n ≤ 31 → String.length (format_02d n) = 2%nat.
Proof.
  intros Hn.
  assert (Forall (λ n, String.length (format_02d n) = 2%nat) (seqZ 1 31)) as Hall
    by (apply (bool_decide_unpack _); by vm_compute).
  rewrite Forall_forall in Hall. apply Hall, elem_of_seqZ. lia.
Qed.

Lemma format_02d_inj n n' :
  1 ≤ n ≤ 31 → 1 ≤ n' ≤ 31 → format_02d n = format_02d n' → n = n'.
Proof.
  intros Hn Hn'.
  apply (NoDup_fmap_inj_on format_02d (seqZ 1 31)).
  - apply (bool_decide_unpack _). by vm_compute.
  - apply elem_of_seqZ. lia.
  - apply elem_of_seqZ. lia.
Qed.

Lemma app_length_inj (a a' b b' : string) :
  String.length a = String.length a' → a +:+ b = a' +:+ b' → a = a' ∧ b = b'.
Proof.
  revert a'. induction a as [|ch a IH]; intros [|ch' a'] Hlen Happ;
    try done.
  simpl in Hlen, Happ. injection Happ as -> Happ.
  destruct (IH a') as [-> ->]; [lia|done|done].
Qed.

Lemma MONTH_NAME_TO_NUM_inj month month' num :
  MONTH_NAME_TO_NUM !! month = Some num →
  MONTH_NAME_TO_NUM !! month' = Some num →
  month = month'.
Proof.
  intros Hm%elem_of_list_to_map_2 Hm'%elem_of_list_to_map_2.
  assert ((month, num) = (month', num)) as [= ->]; [|done].
  eapply (NoDup_fmap_inj_on snd); [|exact Hm|exact Hm'|done].
  apply (bool_decide_unpack _). by vm_compute.
Qed.

Lemma MONTH_NAME_TO_NUM_range month num :
  MONTH_NAME_TO_NUM !! month = Some num → 1 ≤ num ≤ 12.
Proof.
  intros Hm%elem_of_list_to_map_2.
  repeat (apply elem_of_cons in Hm as [[= _ ->]|Hm]; [lia|]).
  by apply elem_of_nil in Hm.
Qed.

Lemma elem_of_season_calendar months year month num day :
  (month, num, day) ∈ season_calendar months year →
  month ∈ months ∧ MONTH_NAME_TO_NUM !! month = Some num ∧ 1 ≤ day ≤ 31.
Proof.
  unfold season_calendar. rewrite list_elem_of_bind.
  intros (m & Hin & Hm). unfold month_calendar in Hin.
  destruct (MONTH_NAME_TO_NUM !! m) as [n|] eqn:Hn;
    [|by apply elem_of_nil in Hin].
  rewrite (monthrange_days_in_month m n year Hn) in Hin.
  apply list_elem_of_fmap in Hin as (d & [= -> -> ->] & Hd).
  unfold range in Hd. apply elem_of_seqZ in Hd.
  pose proof (days_in_month_bounds m year). repeat split; [done|done|lia..].
Qed.

Lemma season_calendar_NoDup months year :
  NoDup months → NoDup (season_calendar months year).
Proof.
  intros Hnd. unfold season_calendar. apply NoDup_bind; [| |done].
  - intros m1 m2 [[m n] d] _ _ H1 H2. unfold month_calendar in H1, H2.
    destruct (MONTH_NAME_TO_NUM !! m1) as [n1|]; [|by apply elem_of_nil in H1].
    destruct (MONTH_NAME_TO_NUM !! m2) as [n2|]; [|by apply elem_of_nil in H2].
    destruct (monthrange_ndays year n1); [|by apply elem_of_nil in H1].
    destruct (monthrange_ndays year n2); [|by apply elem_of_nil in H2].
    apply list_elem_of_fmap in H1 as (d1 & [= -> _ _] & _).
    by apply list_elem_of_fmap in H2 as (d2 & [= -> _ _] & _).
  - intros m _. unfold month_calendar.
    destruct (MONTH_NAME_TO_NUM !! m) as [n|]; [|constructor].
    destruct (monthrange_ndays year n); [|constructor].
    apply NoDup_fmap_2; [by intros ?? [= ->]|apply NoDup_seqZ].
Qed.

Lemma season_records_date {A} `{Number A} (random_sample : nat → A)
    key c fr year p days :
  date <$> season_records random_sample key c fr year p days
  = (λ x, str year +:+ "-" +:+ format_02d x.1.2 +:+ "-" +:+ format_02d x.2)
      <$> days.
Proof.
  revert p. induction days as [|[[m n] d] days IH]; intros p; [done|].
  rewrite season_records_cons, !fmap_cons, IH. done.
Qed.

(** The date column is a key: when no month is listed twice, no two rows of
    a returned table have the same date string. *)
Theorem generate_seasonal_data_dates_distinct {A} `{Number A}
    (random_sample : nat → A) key months fr year (w : World A) df w' :
  NoDup months →
  generate_seasonal_data random_sample key months fr year w = (Ok df, w') →
  NoDup (date <$> df).
Proof.
  intros Hnd
    [(_ & -> & _)|(c & _ & Hmonths & -> & _)]%generate_seasonal_data_Ok_inv;
    [constructor|].
  rewrite season_records_date.
  apply NoDup_fmap_2_strong; [|by apply season_calendar_NoDup].
  intros [[m n] d] [[m' n'] d']
    (_ & Hm & Hd)%elem_of_season_calendar
    (_ & Hm' & Hd')%elem_of_season_calendar Heq.
  simpl in Heq.
  apply (inj (String.app (str year))) in Heq.
  apply (inj (String.app "-")) in Heq.
  pose proof (MONTH_NAME_TO_NUM_range m n Hm).
  pose proof (MONTH_NAME_TO_NUM_range m' n' Hm').
  apply app_length_inj in Heq as [Hn Heq];
    [|by rewrite !format_02d_length by lia].
  apply (inj (String.app "-")) in Heq.
  apply format_02d_inj in Hn; [|lia..]. apply format_02d_inj in Heq; [|lia..].
  subst. by rewrite (MONTH_NAME_TO_NUM_inj m m' n' Hm Hm').
Qed.

(** The winter of 2024. *)
Lemma generate_seasonal_data_dates_distinct_witness :
  ∃ df w',
    generate_seasonal_data halves "winter" winter_months_list winter_ranges
      2024 fresh_world = (Ok df, w')
    ∧ NoDup (date <$> df).
Proof.
  destruct (generate_seasonal_data halves "winter" winter_months_list
              winter_ranges 2024 fresh_world) as [[df|e] w'] eqn:Hrun;
    [|by vm_compute in Hrun].
  exists df, w'. split; [reflexivity|].
  apply (generate_seasonal_data_dates_distinct halves "winter"
           winter_months_list winter_ranges 2024 fresh_world df w');
    [|exact Hrun].
  apply (bool_decide_unpack _). by vm_compute.
Defined.

(** *** Precision of the stored values, in exact arithmetic *)

Lemma div_half_even_error a b :
  0 < b → 2 * Z.abs (div_half_even a b * b - a) ≤ b.
Proof.
  intros Hb. unfold div_half_even.
  pose proof (Z.div_mod a b ltac:(lia)) as Hdm.
  pose proof (Z.mod_pos_bound a b Hb) as Hm.
  destruct (Z.compare_spec (2 * (a mod b)) b) as [Heq|Hlt|Hgt];
    [destruct (Z.even (a / b))| |]; nia.
Qed.

Lemma Qround2_rounded_from (x : Q) : rounded_from x (Qround2 x).
Proof.
  split.
  - exists (Qround_half_even (x * 100)). unfold Qround2, Qeq. simpl. lia.
  - destruct x as [p q]. unfold Qround2, Qround_half_even.
    pose proof (div_half_even_error (p * 100) (Z.pos (q * 1)) ltac:(lia)) as He.
    simpl. set (n := div_half_even (p * 100) (Z.pos (q * 1))) in *.
    unfold Qle. simpl. nia.
Qed.

(** Every stored number of a returned table is a whole number of hundredths
    and lies within 0.005 of what it was rounded from: the five parameters
    of their draws, the energy column of the energy computed from the draws. *)
Theorem generate_seasonal_data_precision (random_sample : nat → Q)
    key months fr year (w : World Q) df w' k r :
  generate_seasonal_data random_sample key months fr year w = (Ok df, w') →
  df !! k = Some r →
  ∃ c,
    coefficients !! key = Some c
    ∧ rounded_from
        (draw random_sample (irradiance_range fr) (5 * k + rng_pos w))
        (irradiance r)
    ∧ rounded_from
        (draw random_sample (humidity_range fr) (5 * k + rng_pos w + 1))
        (humidity r)
    ∧ rounded_from
        (draw random_sample (wind_speed_range fr) (5 * k + rng_pos w + 2))
        (wind_speed r)
    ∧ rounded_from
        (draw random_sample (ambient_temperature_range fr)
           (5 * k + rng_pos w + 3))
        (ambient_temperature r)
    ∧ rounded_from
        (draw random_sample (tilt_angle_range fr) (5 * k + rng_pos w + 4))
        (tilt_angle r)
    ∧ rounded_from
        (energy c key
           (draw random_sample (irradiance_range fr) (5 * k + rng_pos w))
           (draw random_sample (humidity_range fr) (5 * k + rng_pos w + 1))
           (draw random_sample (wind_speed_range fr) (5 * k + rng_pos w + 2))
           (draw random_sample (ambient_temperature_range fr)
              (5 * k + rng_pos w + 3))
           (draw random_sample (tilt_angle_range fr) (5 * k + rng_pos w + 4)))
        (kwh r).
Proof.
  intros [(_ & -> & _)|(c & Hc & _ & -> & _)]%generate_seasonal_data_Ok_inv Hk;
    [done|].
  apply season_records_row in Hk as (-> & -> & -> & -> & -> & ->).
  exists c. split; [done|]. repeat split; apply Qround2_rounded_from.
Qed.

(** The first row of a February run over the default winter ranges. *)
Lemma generate_seasonal_data_precision_witness :
  ∃ df w' r,
    generate_seasonal_data off_grid "winter" ["February"] winter_ranges 2023
      fresh_world = (Ok df, w')
    ∧ df !! 0%nat = Some r
    ∧ rounded_from (draw off_grid (irradiance_range winter_ranges) 0)
        (irradiance r).
Proof.
  destruct (generate_seasonal_data off_grid "winter" ["February"] winter_ranges
              2023 fresh_world) as [[df|e] w'] eqn:Hrun;
    [|by vm_compute in Hrun].
  destruct (df !! 0%nat) as [r|] eqn:Hr.
  2:{ vm_compute in Hrun. injection Hrun as <- _. by vm_compute in Hr. }
  exists df, w', r. split; [reflexivity|]. split; [exact Hr|].
  by destruct (generate_seasonal_data_precision off_grid "winter" ["February"]
                 winter_ranges 2023 fresh_world df w' 0 r Hrun Hr)
    as (c & _ & Hirr & _).
Defined.

(** In exact arithmetic no coefficient exceeds these magnitudes in any
    season. *)
Lemma coefficients_magnitudes season (c : Coefficients Q) :
  coefficients !! season = Some c →
  (0 < c_irr c <= 22 # 100 ∧ - (35 # 1000) <= c_hum c < 0
   ∧ 0 < c_wind c <= 25 # 1000 ∧ 0 < c_temp c <= 8 # 100
   ∧ - (2 # 100) <= c_tilt c < 0)%Q.
Proof.
  intros Hc%elem_of_list_to_map_2.
  repeat (apply elem_of_cons in Hc as [[= -> ->]|Hc]; [by vm_compute|]).
  by apply elem_of_nil in Hc.
Qed.

Lemma Qabs_bounds (x b : Q) : (Qabs x <= b → - b <= x <= b)%Q.
Proof. apply Qabs_Qle_condition. Qed.

(** Moving each of the five parameters by at most 0.005 moves the energy by
    at most 0.0019. *)
Lemma energy_rounding season (c : Coefficients Q)
    (d1 d2 d3 d4 d5 s1 s2 s3 s4 s5 : Q) :
  coefficients !! season = Some c →
  (Qabs (s1 - d1) <= 1 # 200)%Q → (Qabs (s2 - d2) <= 1 # 200)%Q →
  (Qabs (s3 - d3) <= 1 # 200)%Q → (Qabs (s4 - d4) <= 1 # 200)%Q →
  (Qabs (s5 - d5) <= 1 # 200)%Q →
  (Qabs (energy c season s1 s2 s3 s4 s5 - energy c season d1 d2 d3 d4 d5)
   <= 19 # 10000)%Q.
Proof.
  intros Hc H1%Qabs_bounds H2%Qabs_bounds H3%Qabs_bounds H4%Qabs_bounds
    H5%Qabs_bounds.
  destruct (coefficients_magnitudes season c Hc) as (Hi & Hh & Hw & Ht & Ha).
  unfold energy. cbn [nadd nsub nmul nabs Q_Number].
  set (o := optimal_tilt season) in *.
  assert (- (1 # 200) <= Qabs (s5 - o) - Qabs (d5 - o) <= 1 # 200)%Q as Habs.
  { apply (Qabs_case (s5 - o)); apply (Qabs_case (d5 - o)); intros; lra. }
  set (a := Qabs (s5 - o)) in *. set (b := Qabs (d5 - o)) in *.
  set (ci := c_irr c) in *. set (ch := c_hum c) in *.
  set (cw := c_wind c) in *. set (ct := c_temp c) in *.
  set (ca := c_tilt c) in *.
  assert (- (22 # 20000) <= ci * (s1 - d1) <= 22 # 20000)%Q by nra.
  assert (- (35 # 200000) <= ch * (s2 - d2) <= 35 # 200000)%Q by nra.
  assert (- (25 # 200000) <= cw * (s3 - d3) <= 25 # 200000)%Q by nra.
  assert (- (8 # 20000) <= ct * (s4 - d4) <= 8 # 20000)%Q by nra.
  assert (- (2 # 20000) <= ca * (a - b) <= 2 # 20000)%Q by nra.
  apply Qabs_case; intros; lra.
Qed.

(** Recomputing the energy from the stored (rounded) parameters of a row
    gives a number within 0.0069 of the stored energy: the two can differ,
    but by less than one hundredth. *)
Theorem generate_seasonal_data_recomputed_energy (random_sample : nat → Q)
    key months fr year (w : World Q) df w' k r :
  generate_seasonal_data random_sample key months fr year w = (Ok df, w') →
  df !! k = Some r →
  ∃ c,
    coefficients !! key = Some c
    ∧ (Qabs (kwh r - energy c key (irradiance r) (humidity r) (wind_speed r)
                       (ambient_temperature r) (tilt_angle r))
       <= 69 # 10000)%Q.
Proof.
  intros [(_ & -> & _)|(c & Hc & _ & -> & _)]%generate_seasonal_data_Ok_inv Hk;
    [done|].
  apply season_records_row in Hk as (-> & -> & -> & -> & -> & ->).
  exists c. split; [done|].
  set (p := rng_pos w).
  pose proof (energy_rounding key c
    (draw random_sample (irradiance_range fr) (5 * k + p))
    (draw random_sample (humidity_range fr) (5 * k + p + 1))
    (draw random_sample (wind_speed_range fr) (5 * k + p + 2))
    (draw random_sample (ambient_temperature_range fr) (5 * k + p + 3))
    (draw random_sample (tilt_angle_range fr) (5 * k + p + 4))
    _ _ _ _ _ Hc
    (proj2 (Qround2_rounded_from _)) (proj2 (Qround2_rounded_from _))
    (proj2 (Qround2_rounded_from _)) (proj2 (Qround2_rounded_from _))
    (proj2 (Qround2_rounded_from _))) as He%Qabs_bounds.
  pose proof (proj2 (Qround2_rounded_from (energy c key
    (draw random_sample (irradiance_range fr) (5 * k + p))
    (draw random_sample (humidity_range fr) (5 * k + p + 1))
    (draw random_sample (wind_speed_range fr) (5 * k + p + 2))
    (draw random_sample (ambient_temperature_range fr) (5 * k + p + 3))
    (draw random_sample (tilt_angle_range fr) (5 * k + p + 4)))))
    as H6%Qabs_bounds.
  cbn [round2 Q_Number] in *.
  apply Qabs_case; intros; lra.
Qed.

(** The row of the run that stores 89.14 where its stored parameters give
    89.1345. *)
Lemma generate_seasonal_data_recomputed_energy_witness :
  ∃ df w' r c,
    generate_seasonal_data off_grid "winter" ["February"] winter_ranges 2023
      fresh_world = (Ok df, w')
    ∧ df !! 0%nat = Some r
    ∧ coefficients !! "winter" = Some c
    ∧ (Qabs (kwh r - energy c "winter" (irradiance r) (humidity r)
                       (wind_speed r) (ambient_temperature r) (tilt_angle r))
       <= 69 # 10000)%Q.
Proof.
  destruct (generate_seasonal_data off_grid "winter" ["February"] winter_ranges
              2023 fresh_world) as [[df|e] w'] eqn:Hrun;
    [|by vm_compute in Hrun].
  destruct (df !! 0%nat) as [r|] eqn:Hr.
  2:{ vm_compute in Hrun. injection Hrun as <- _. by vm_compute in Hr. }
  destruct (generate_seasonal_data_recomputed_energy off_grid "winter"
              ["February"] winter_ranges 2023 fresh_world df w' 0 r Hrun Hr)
    as (c & Hc & Hclose).
  exists df, w', r, c. split; [reflexivity|]. split; [exact Hr|].
  split; [exact Hc|exact Hclose].
Defined.

(** *** The energy over the default ranges *)

(** With draws inside a season's default ranges the energy lies between 51
    and 221 (the extremes are 51.915 for winter and 220.1 for summer). *)
Lemma default_energy_bounds season cfg (c : Coefficients Q) (d1 d2 d3 d4 d5 : Q) :
  SEASONS_CONFIG !! season = Some cfg →
  coefficients !! season = Some c →
  within (irradiance_range (ranges cfg)) d1 →
  within (humidity_range (ranges cfg)) d2 →
  within (wind_speed_range (ranges cfg)) d3 →
  within (ambient_temperature_range (ranges cfg)) d4 →
  within (tilt_angle_range (ranges cfg)) d5 →
  (51 <= energy c season d1 d2 d3 d4 d5 <= 221)%Q.
Proof.
  intros Hs%SEASONS_CONFIG_inv Hc. unfold within.
  repeat (apply elem_of_cons in Hs as [[= -> ->]|Hs]);
    try (by apply elem_of_nil in Hs);
    vm_compute in Hc; injection Hc as <-;
    cbn [ranges irradiance_range humidity_range wind_speed_range
         ambient_temperature_range tilt_angle_range fst snd];
    intros H1 H2 H3 H4 H5;
    unfold energy, inject_Z in *;
    match goal with
    | |- context [optimal_tilt ?s] =>
        let o := eval vm_compute in (optimal_tilt (A:=Q) s) in
        change (optimal_tilt s) with o
    end;
    cbn [nadd nsub nmul nabs Q_Number c_irr c_hum c_wind c_temp c_tilt];
    match goal with
    | |- context [Qabs ?x] =>
        let a := fresh "a" in
        assert (0 <= Qabs x ∧ Qabs x <= 25)%Q as [? ?]
          by (split; apply (Qabs_case x); intros; lra);
        set (a := Qabs x) in *; split; lra
    end.
Qed.

(** Every default range has its minimum below its maximum. *)
Lemma SEASONS_CONFIG_ordered season cfg :
  SEASONS_CONFIG !! season = Some cfg → ordered (ranges cfg).
Proof.
  intros Hs%SEASONS_CONFIG_inv.
  repeat (apply elem_of_cons in Hs as [[= -> ->]|Hs]; [by vm_compute|]).
  by apply elem_of_nil in Hs.
Qed.

(** Over a season's default ranges, with random numbers in [[0, 1)], every
    stored energy is between 51 and 221 kWh; in particular it is positive. *)
Theorem generate_seasonal_data_default_energy (random_sample : nat → Q)
    key cfg year (w : World Q) df w' r :
  unit_samples random_sample →
  SEASONS_CONFIG !! key = Some cfg →
  generate_seasonal_data random_sample key (months cfg) (ranges cfg) year w
  = (Ok df, w') →
  r ∈ df →
  (51 <= kwh r <= 221)%Q.
Proof.
  intros Hu Hs Hrun Hr.
  destruct (SEASONS_CONFIG_ordered key cfg Hs) as (Ho1 & Ho2 & Ho3 & Ho4 & Ho5).
  apply generate_seasonal_data_rows in Hrun.
  rewrite Forall_forall in Hrun.
  destruct (Hrun r Hr) as (c & p & m & num & d & Hc & _ & _ & ->).
  unfold record_at. cbn [kwh round2 Q_Number].
  pose proof (default_energy_bounds key cfg c _ _ _ _ _ Hs Hc
    (draw_within random_sample _ p Hu Ho1)
    (draw_within random_sample _ (1 + p) Hu Ho2)
    (draw_within random_sample _ (2 + p) Hu Ho3)
    (draw_within random_sample _ (3 + p) Hu Ho4)
    (draw_within random_sample _ (4 + p) Hu Ho5)) as [Hlo Hhi].
  split; [by apply (Qround2_lower 51) | by apply (Qround2_upper 221)].
Qed.

(** The winter of 2024 over the default winter ranges. *)
Lemma generate_seasonal_data_default_energy_witness :
  ∃ cfg df w' r,
    SEASONS_CONFIG !! "winter" = Some cfg
    ∧ generate_seasonal_data halves "winter" (months cfg) (ranges cfg) 2024
        fresh_world = (Ok df, w')
    ∧ r ∈ df
    ∧ (51 <= kwh r <= 221)%Q.
Proof.
  assert (unit_samples halves) as Hu by (intros k; by vm_compute).
  exists {| months := winter_months_list; ranges := winter_ranges;
            color := "#3498db"; icon := "❄️" |}.
  destruct (generate_seasonal_data halves "winter" winter_months_list
              winter_ranges 2024 fresh_world) as [[[|r df]|e] w'] eqn:Hrun;
    [by vm_compute in Hrun| |by vm_compute in Hrun].
  exists (r :: df), w', r.
  split; [reflexivity|]. split; [exact Hrun|]. split; [left|].
  apply (generate_seasonal_data_default_energy halves "winter"
           {| months := winter_months_list; ranges := winter_ranges;
              color := "#3498db"; icon := "❄️" |} 2024
           fresh_world (r :: df) w' r Hu eq_refl Hrun).
  left.
Defined.

(** ** Further properties: a run of the script *)

Section Keeps.
Context {A : Type} `{Number A}.
Variable R : World A → World A → Prop.
Context `{!Reflexive R, !Transitive R}.

Lemma keeps_ret {X} (x : X) : keeps R (ret x).
Proof. intros w r w' [= _ <-]. reflexivity. Qed.

Lemma keeps_raise {X} e : keeps R (raise (X:=X) e).
Proof. intros w r w' [= _ <-]. reflexivity. Qed.

Lemma keeps_bind {X Y} (m : M X) (k : X → M Y) :
  keeps R m → (∀ x, keeps R (k x)) → keeps R (bind m k).
Proof.
  intros Hm Hk w r w'. unfold bind.
  destruct (m w) as [[x|e] w1] eqn:Hrun.
  - intros Hrest. transitivity w1; [by eapply Hm | by eapply Hk].
  - intros [= _ <-]. by eapply Hm.
Qed.

Lemma keeps_getitem {V} (d : gmap string V) k : keeps R (getitem d k).
Proof. unfold getitem. destruct (d !! k); [apply keeps_ret|apply keeps_raise]. Qed.

Lemma keeps_for {X S} (body : S → X → M S) xs s :
  (∀ s x, keeps R (body s x)) → keeps R (for_ xs body s).
Proof.
  intros Hbody. revert s. induction xs as [|x xs IH]; intros s; simpl.
  - apply keeps_ret.
  - apply keeps_bind; [apply Hbody | apply IH].
Qed.

End Keeps.

#[export] Instance same_draws_and_session_refl {A} :
  Reflexive (same_draws_and_session (A:=A)).
Proof. by intros w. Qed.

#[export] Instance same_draws_and_session_trans {A} :
  Transitive (same_draws_and_session (A:=A)).
Proof. intros w1 w2 w3 [? ?] [? ?]. split; congruence. Qed.

#[export] Instance same_config_refl {A} : Reflexive (same_config (A:=A)).
Proof. by intros w. Qed.

#[export] Instance same_config_trans {A} : Transitive (same_config (A:=A)).
Proof. intros w1 w2 w3 ? ?. unfold same_config in *. congruence. Qed.

Section ScriptRun.
Context {A : Type} `{Number A}.
Variable random_sample : nat → A.

Implicit Types (w : World A) (df : DataFrame A).

Lemma emit_same_draws_and_session e :
  keeps (A:=A) same_draws_and_session (emit e).
Proof. by intros w r w' [= _ <-]. Qed.

Lemma display_same_draws_and_session selected_season selected_year :
  keeps (A:=A) same_draws_and_session (display selected_season selected_year).
Proof.
  unfold display. apply keeps_bind; [apply _..| |].
  - by intros w r w' [= _ <-].
  - intros state. destruct (state !! "solar_data") as [v|].
    + intros w r w' (es & -> & _)%data_display_page. done.
    + apply emit_same_draws_and_session.
Qed.

Lemma emit_same_config e : keeps (A:=A) same_config (emit e).
Proof. by intros w r w' [= _ <-]. Qed.

Lemma generate_seasonal_data_same_config season months fr year :
  keeps (A:=A) same_config
    (generate_seasonal_data random_sample season months fr year).
Proof.
  rewrite generate_seasonal_data_unfold.
  apply keeps_for; [apply _..|]. intros data month.
  apply keeps_bind; [apply _..| |].
  { unfold get_days_in_month. apply keeps_bind; [apply _..| |].
    - apply keeps_getitem; apply _.
    - intros num. destruct (monthrange_ndays year num);
        [apply keeps_ret|apply keeps_raise]; apply _. }
  intros days. apply keeps_for; [apply _..|]. intros data' day.
  unfold day_body.
  do 5 (apply keeps_bind; [apply _..|by intros w r w' [= _ <-]|intros ?]).
  apply keeps_bind; [apply _..| |].
  { unfold calc_kwh_generalized. apply keeps_bind; [apply _..| |].
    - apply keeps_getitem; apply _.
    - intros c. apply keeps_ret, _. }
  intros kwh. apply keeps_bind; [apply _..| |].
  - apply keeps_getitem; apply _.
  - intros num. apply keeps_ret, _.
Qed.

Lemma display_same_config selected_season selected_year :
  keeps (A:=A) same_config (display selected_season selected_year).
Proof.
  unfold display. apply keeps_bind; [apply _..| |].
  - by intros w r w' [= _ <-].
  - intros state. destruct (state !! "solar_data") as [v|].
    + intros w r w' (es & -> & _)%data_display_page. done.
    + apply emit_same_config.
Qed.

End ScriptRun.

(** A run without a click on the button draws no random number and stores
    nothing in the session state, whether it returns or raises and whatever
    the other widgets hold. *)
Theorem script_without_click {A} `{Number A} (random_sample : nat → A)
    inp (w : World A) r w' :
  generate_clicked inp = false →
  script random_sample inp w = (r, w') →
  rng_pos w' = rng_pos w ∧ session_state w' = session_state w.
Proof.
  intros Hclick. revert w r w'.
  change (keeps same_draws_and_session (script random_sample inp)).
  unfold script. rewrite Hclick.
  apply keeps_bind; [apply _..|apply emit_same_draws_and_session|intros _].
  apply keeps_bind; [apply _..|by intros w r w' [= _ <-]|intros _].
  apply keeps_bind; [apply _..| |intros _].
  { destruct (use_custom_params inp); [|apply keeps_ret, _].
    apply keeps_bind; [apply _..|by intros w r w' [= _ <-]|intros config].
    apply keeps_bind; [apply _..|apply keeps_getitem; apply _|intros cfg].
    by intros w r w' [= _ <-]. }
  apply keeps_bind; [apply _..|by intros w r w' [= _ <-]|intros config].
  apply keeps_bind; [apply _..|apply keeps_getitem; apply _|intros cfg].
  apply keeps_bind; [apply _..|apply emit_same_draws_and_session|intros _].
  apply keeps_bind; [apply _..|apply keeps_ret, _|intros _].
  apply display_same_draws_and_session.
Qed.

(** A first visit with custom parameters switched on and no click. *)
Lemma script_without_click_witness :
  ∃ r w',
    script halves
      {| selected_season := "summer"; selected_year := 2025;
         use_custom_params := true; sliders := winter_ranges;
         generate_clicked := false |} fresh_world = (r, w')
    ∧ rng_pos w' = 0%nat ∧ session_state w' = ∅.
Proof.
  eexists _, _. split; [reflexivity|].
  apply (script_without_click halves
           {| selected_season := "summer"; selected_year := 2025;
              use_custom_params := true; sliders := winter_ranges;
              generate_clicked := false |} fresh_world _ _ eq_refl eq_refl).
Defined.

Section ScriptSteps.
Context {A : Type} `{Number A}.
Variable random_sample : nat → A.

Implicit Types (w : World A) (df : DataFrame A).

(** The run up to the season card, for a selected season that is a key of
    the table of line 72: the title and the card are on the page, and the
    table is the one of line 72 with the effective entry for the selected
    season, whatever table the run started with. *)
Lemma script_head inp cfg w :
  SEASONS_CONFIG !! selected_season inp = Some cfg →
  script random_sample inp w
  = bind
      (if generate_clicked inp then
         bind (generate_seasonal_data random_sample (selected_season inp)
                 (months cfg) (ranges (effective_config inp cfg))
                 (selected_year inp))
           (λ df_season,
              bind (session_set "solar_data" (VDataFrame df_season))
                (λ _, session_set "current_season"
                        (VStr (selected_season inp))))
       else ret ())
      (λ _, display (selected_season inp) (selected_year inp))
      {| rng_pos := rng_pos w;
         seasons_config :=
           <[selected_season inp := effective_config inp cfg]> SEASONS_CONFIG;
         session_state := session_state w;
         page := page w ++ [Title;
                            SeasonCard (icon cfg) (selected_season inp)
                              (months cfg) (selected_year inp)] |}.
Proof.
  intros Hcfg. unfold script, effective_config. rewrite bind_emit.
  erewrite bind_Ok; [|reflexivity].
  destruct (use_custom_params inp).
  - erewrite bind_Ok;
      [|erewrite bind_Ok; [|reflexivity];
        erewrite bind_Ok; [|by apply getitem_Some]; reflexivity].
    erewrite bind_Ok; [|reflexivity].
    erewrite bind_Ok; [|apply getitem_Some, lookup_insert_eq].
    rewrite bind_emit. unfold render; simpl. by rewrite <- (assoc_L (++)).
  - erewrite bind_Ok; [|reflexivity].
    erewrite bind_Ok; [|reflexivity].
    erewrite bind_Ok; [|by apply getitem_Some].
    rewrite bind_emit. unfold render; simpl.
    by rewrite <- (assoc_L (++)), (insert_id _ _ _ Hcfg).
Qed.

Lemma session_set_same_config k v : keeps (A:=A) same_config (session_set k v).
Proof. by intros w r w' [= _ <-]. Qed.

End ScriptSteps.

(** Every run starts from the table of line 72: whatever an earlier run
    left in [SEASONS_CONFIG], slider ranges included, is discarded.  At the
    end of a run the table is the one of line 72, except that the ranges of
    the selected season are the slider ranges when custom parameters are
    switched on; months, colour and icon stay, and so does every other
    season.  This holds whether the run returns or raises later. *)
Theorem script_config {A} `{Number A} (random_sample : nat → A)
    inp cfg (w : World A) r w' :
  SEASONS_CONFIG !! selected_season inp = Some cfg →
  script random_sample inp w = (r, w') →
  seasons_config w'
  = <[selected_season inp := effective_config inp cfg]> SEASONS_CONFIG.
Proof.
  intros Hcfg. rewrite (script_head random_sample inp cfg w Hcfg).
  intros Hrest.
  eapply (keeps_bind same_config) in Hrest; [exact Hrest| |].
  - destruct (generate_clicked inp); [|apply keeps_ret, _].
    apply keeps_bind; [apply _..| |intros df].
    { apply generate_seasonal_data_same_config. }
    apply keeps_bind; [apply _..| |intros _]; apply session_set_same_config.
  - intros _. apply display_same_config.
Qed.

(** A run for summer without custom parameters, started with a table in
    which an earlier run has put the winter ranges on summer: the run ends
    with the table of line 72. *)
Lemma script_config_witness :
  ∃ r w',
    script halves
      {| selected_season := "summer"; selected_year := 2025;
         use_custom_params := false; sliders := winter_ranges;
         generate_clicked := false |} overridden_world = (r, w')
    ∧ (ranges <$> seasons_config (A:=Q) overridden_world !! "summer")
      = Some winter_ranges
    ∧ seasons_config w' = SEASONS_CONFIG.
Proof.
  eexists _, _. split; [reflexivity|]. split; [reflexivity|].
  erewrite (script_config halves
              {| selected_season := "summer"; selected_year := 2025;
                 use_custom_params := false; sliders := winter_ranges;
                 generate_clicked := false |} _ overridden_world _ _
              eq_refl eq_refl).
  apply insert_id. reflexivity.
Defined.




